(** * ribeiro-social-sync.py: one-way Mastodon -> Twitter mirroring

    A shallow embedding of [src/ribeiro-social-sync.py] (class [Twoot]) and
    the properties of its synchronisation and de-duplication engine.

    Conventions of the embedding:
    - a Python [str] is the list of its code points ([list N]); [len] is
      [length];
    - identifiers of toots, tweets and accounts are Python [int]s ([Z]);
    - [None] is [Datatypes.None] of an [option];
    - a method that can raise returns a [result]; the mutable object
      [self], the data file and the two platforms are threaded explicitly
      through the monad [M];
    - logging is left out, except the warnings of the media relay;
    - [get_new_tweets] is not embedded: its only call is commented out in
      [run]. *)

From Stdlib Require Import String Ascii.
From Stdlib Require Import List ZArith NArith Bool Lia.
Import ListNotations.

Set Implicit Arguments.
Local Open Scope Z_scope.

(* ================================================================== *)
(** * Python values used by the program *)
(* ================================================================== *)

(** A Python [str]: a sequence of Unicode code points. *)
Definition str := list N.

(** Literal text, written as a Rocq string of ASCII characters. *)
Definition lit (s : string) : str := map N_of_ascii (list_ascii_of_string s).

Definition str_eqb (a b : str) : bool :=
  if list_eq_dec N.eq_dec a b then true else false.

(** [s.startswith(p)]. *)
Fixpoint starts_with (p s : str) : bool :=
  match p, s with
  | [], _ => true
  | _ :: _, [] => false
  | a :: p', b :: s' => N.eqb a b && starts_with p' s'
  end.

(** [p in s] for two strings: [p] occurs in [s] as a substring. *)
Fixpoint contains (s p : str) : bool :=
  starts_with p s ||
  match s with
  | [] => false
  | _ :: s' => contains s' p
  end.

(** [s.replace(old, new)]: every non-overlapping occurrence of [old], found
    from the left, is replaced.  [skip] counts the characters of an
    occurrence that are still to be dropped. *)
Fixpoint replace_go (old new : str) (skip : nat) (s : str) : str :=
  match s with
  | [] => []
  | c :: s' =>
      match skip with
      | S k => replace_go old new k s'
      | O =>
          if starts_with old s
          then new ++ replace_go old new (Nat.pred (length old)) s'
          else c :: replace_go old new O s'
      end
  end.

Definition replace (s old new : str) : str :=
  match old with
  | [] => new ++ flat_map (fun c => c :: new) s
  | _ :: _ => replace_go old new O s
  end.

(** [s[:n]] for an [int] [n]: a negative bound counts from the end. *)
Definition slice_to (A : Type) (l : list A) (n : Z) : list A :=
  if 0 <=? n then firstn (Z.to_nat n) l
  else firstn (length l - Z.to_nat (- n)) l.

(** [",".join(l)]. *)
Fixpoint join (sep : str) (l : list str) : str :=
  match l with
  | [] => []
  | [x] => x
  | x :: rest => x ++ sep ++ join sep rest
  end.

(** What [\s] matches in a [str] pattern: the characters for which
    [str.isspace()] holds. *)
Definition isspace (c : N) : bool :=
  (((9 <=? c) && (c <=? 13)) || ((28 <=? c) && (c <=? 32))
   || (c =? 133) || (c =? 160) || (c =? 5760)
   || ((8192 <=? c) && (c <=? 8202))
   || (c =? 8232) || (c =? 8233) || (c =? 8239) || (c =? 8287)
   || (c =? 12288))%N.

(* ------------------------------------------------------------------ *)
(** ** The regular expression [(?P<url>https?://[^\s]+)] *)
(* ------------------------------------------------------------------ *)

Definition strip_prefix (p s : str) : option str :=
  if starts_with p s then Some (skipn (length p) s) else None.

(** The longest prefix of non-space characters, and what follows it. *)
Fixpoint span_nonspace (s : str) : str * str :=
  match s with
  | [] => ([], [])
  | c :: s' =>
      if isspace c then ([], s)
      else let (run, rest) := span_nonspace s' in (c :: run, rest)
  end.

(** [[^\s]+] after the scheme: greedy, at least one character. *)
Definition url_tail (scheme s : str) : option (str * str) :=
  match span_nonspace s with
  | ([], _) => None
  | (run, rest) => Some (scheme ++ run, rest)
  end.

(** An anchored match of the pattern at the head of [s]: the matched text
    and the remainder.  The optional [s] is tried first (greedy), then the
    matcher backtracks to the pattern without it. *)
Definition url_at (s : str) : option (str * str) :=
  match strip_prefix (lit "http") s with
  | None => None
  | Some r =>
      let with_s :=
        match strip_prefix (lit "s") r with
        | Some r1 =>
            match strip_prefix (lit "://") r1 with
            | Some r2 => url_tail (lit "https://") r2
            | None => None
            end
        | None => None
        end in
      match with_s with
      | Some m => Some m
      | None =>
          match strip_prefix (lit "://") r with
          | Some r2 => url_tail (lit "http://") r2
          | None => None
          end
      end
  end.

(** [re.search(pattern, s)]: the leftmost match, [None] when there is
    none.  Only the group [url] (the whole match) is kept. *)
Fixpoint re_search_url (s : str) : option str :=
  match url_at s with
  | Some (u, _) => Some u
  | None =>
      match s with
      | [] => None
      | _ :: s' => re_search_url s'
      end
  end.

(** [re.sub(pattern, '', s)]: every match, found from the left, is
    deleted. *)
Fixpoint re_sub_url_go (skip : nat) (s : str) : str :=
  match s with
  | [] => []
  | c :: s' =>
      match skip with
      | S k => re_sub_url_go k s'
      | O =>
          match url_at s with
          | Some (u, _) => re_sub_url_go (Nat.pred (length u)) s'
          | None => c :: re_sub_url_go O s'
          end
      end
  end.

Definition re_sub_url (s : str) : str := re_sub_url_go O s.

(* ------------------------------------------------------------------ *)
(** ** Exceptions and results *)
(* ------------------------------------------------------------------ *)

Inductive exn : Type :=
| AttributeError      (* attribute access on [None], or a missing method *)
| TypeError           (* unpacking [None] *)
| KeyError
| FileNotFoundError   (* [open] of a missing data file *)
| ClientError.        (* anything a platform client or [requests] raises *)

Inductive result (A : Type) : Type :=
| Ok (a : A)
| Raise (e : exn).
Arguments Ok {A} a.
Arguments Raise {A} e.

(* ================================================================== *)
(** * Data model *)
(* ================================================================== *)

(** A twoot: the dict [{"toot_id": ..., "tweet_id": ...}]. *)
Record twoot : Type := mk_twoot { toot_id : Z; tweet_id : Z }.

(** Account information as returned by [verify_credentials]; the program
    reads only its ["id"]. *)
Record account : Type := mk_account { account_id : Z }.

(** A Mastodon media dict: the keys ["type"] and ["url"]. *)
Record media : Type := mk_media { media_type : str; media_url : str }.

(** A toot dict, with the keys the program reads.  [t_reblog] holds the
    ["id"] of the boosted toot, the only key read of the nested dict. *)
Record toot : Type := mk_toot {
  t_id : Z;
  t_in_reply_to_account_id : option Z;
  t_in_reply_to_id : option Z;
  t_reblog : option Z;
  t_media_attachments : list media;
  t_content : str;
  t_url : str
}.

(** The pickled dict of the data file.  A key that may be missing is an
    [option]. *)
Record Data : Type := mk_Data {
  data_twoots : list twoot;
  data_mastodon_account : option account;
  data_twitter_account : option account;
  data_last_toot : option Z;
  data_last_tweet : option Z
}.

(** [{"twoots": []}] *)
Definition empty_data : Data := mk_Data [] None None None None.

Inductive marker_key : Type := Last_toot | Last_tweet.

(** [data[key] = value] *)
Definition set_marker (d : Data) (key : marker_key) (value : Z) : Data :=
  match key with
  | Last_toot =>
      mk_Data (data_twoots d) (data_mastodon_account d)
              (data_twitter_account d) (Some value) (data_last_tweet d)
  | Last_tweet =>
      mk_Data (data_twoots d) (data_mastodon_account d)
              (data_twitter_account d) (data_last_toot d) (Some value)
  end.

(** [data["twoots"] = tw] *)
Definition set_twoots (d : Data) (tw : list twoot) : Data :=
  mk_Data tw (data_mastodon_account d) (data_twitter_account d)
          (data_last_toot d) (data_last_tweet d).

(** Truth value of an identifier fetched with [.get(key, False)] or of a
    possibly-[None] field: [None], [False] and [0] are false. *)
Definition truthy (o : option Z) : bool :=
  match o with
  | Some z => negb (z =? 0)
  | None => false
  end.

(** [x in l] for a list of ints; [None] is in no such list. *)
Definition mem (x : Z) (l : list Z) : bool := existsb (Z.eqb x) l.

Definition mem_opt (x : option Z) (l : list Z) : bool :=
  match x with
  | Some z => mem z l
  | None => false
  end.

(** [x == z] for a possibly-[None] [x] and an int [z]. *)
Definition opt_eqb (x : option Z) (z : Z) : bool :=
  match x with
  | Some y => y =? z
  | None => false
  end.

(* ------------------------------------------------------------------ *)
(** ** The external collaborators *)
(* ------------------------------------------------------------------ *)

Definition bytes := list N.

(** The response of [requests.get]. *)
Record response : Type := mk_response {
  status_code : Z;
  content_type : option str;     (* headers["content-type"] *)
  content : bytes
}.

(** The keyword arguments of [twitter_upload.media.upload]. *)
Inductive upload_request : Type :=
| UploadSimple (media_data : bytes)
| UploadInit (total_bytes : nat) (mime_type : str)
| UploadAppend (media_id : str) (media_data : bytes) (segment_index : Z)
| UploadFinalize (media_id : str).

(** A Twitter media dict: the key ["media_id_string"]. *)
Record twitter_media : Type := mk_twitter_media { media_id_string : str }.

(** A Twitter status dict: the key ["id"].  Such a response is a
    non-empty dict, so [if r:] holds for it. *)
Record tweet : Type := mk_tweet { tweet_ident : Z }.

(** The two platforms, [requests] and the text transformer
    [__pre_process] (html2text, link expansion by HEAD requests) are not
    part of the engine: they are taken as a transition system over an
    arbitrary [World].  Each operation may raise. *)
Class Platform : Type := {
  World : Type;
  mastodon_account_verify_credentials : World -> result account * World;
  twitter_account_verify_credentials : World -> result account * World;
  mastodon_account_statuses :
    Z -> option Z -> World -> result (list toot) * World;
  requests_get : str -> World -> result response * World;
  twitter_media_upload :
    upload_request -> World -> result twitter_media * World;
  twitter_statuses_update :
    str -> option Z -> str -> World -> result tweet * World;
  twitter_statuses_retweet : option Z -> World -> result tweet * World;
  pre_process : str -> World -> result str * World
}.

(** Observable actions, in the order they happen: the calls that change the
    destination platform, and the warnings logged by the media relay. *)
Inductive action : Type :=
| Upload (req : upload_request)
| StatusUpdate (status : str) (in_reply_to_status_id : option Z)
               (media_ids : str)
| Retweet (target : option Z)
| Warn (url : str).

(* ================================================================== *)
(** * class Twoot *)
(* ================================================================== *)

Section Twoot.

Context {P : Platform}.

(** The attributes of [self] that change or are consulted during a run. *)
Record Self : Type := mk_Self {
  setup : bool;              (* self.setup *)
  max_twoots : Z;            (* self.config["max_twoots"] *)
  twoots : list twoot;       (* self.twoots *)
  data : Data                (* self.data *)
}.

(** The whole state a method acts on: [self], the content of
    [self.data_file] ([None] when there is no such file), the outside
    world and the actions performed so far. *)
Record State : Type := mk_State {
  self : Self;
  data_file : option Data;
  world : World;
  actions : list action
}.

(** State and exception monad: an exception leaves the state as it was
    when it was raised. *)
Definition M (A : Type) : Type := State -> result A * State.

Definition ret {A} (a : A) : M A := fun s => (Ok a, s).

Definition raise {A} (e : exn) : M A := fun s => (Raise e, s).

Definition bind {A B} (m : M A) (f : A -> M B) : M B :=
  fun s =>
    match m s with
    | (Ok a, s') => f a s'
    | (Raise e, s') => (Raise e, s')
    end.

(** [try: m  except Exception: h] *)
Definition try_except {A} (m : M A) (h : M A) : M A :=
  fun s =>
    match m s with
    | (Ok a, s') => (Ok a, s')
    | (Raise _, s') => h s'
    end.

Notation "x <- m ;; k" := (bind m (fun x => k))
  (at level 61, m at next level, right associativity).
Notation "m ;;; k" := (bind m (fun _ => k))
  (at level 61, right associativity).

Definition get_self : M Self := fun s => (Ok (self s), s).

Definition put_self (o : Self) : M unit :=
  fun s => (Ok tt, mk_State o (data_file s) (world s) (actions s)).

Definition read_file : M (option Data) := fun s => (Ok (data_file s), s).

Definition write_file (d : Data) : M unit :=
  fun s => (Ok tt, mk_State (self s) (Some d) (world s) (actions s)).

(** A call to a collaborator. *)
Definition call {A} (op : World -> result A * World) : M A :=
  fun s =>
    let (r, w) := op (world s) in
    (r, mk_State (self s) (data_file s) w (actions s)).

Definition emit (a : action) : M unit :=
  fun s =>
    (Ok tt, mk_State (self s) (data_file s) (world s) (actions s ++ [a])).

(** [for x in l: body(x)] *)
Fixpoint for_each {A} (l : list A) (body : A -> M unit) : M unit :=
  match l with
  | [] => ret tt
  | x :: rest => body x ;;; for_each rest body
  end.

(** [[f(x) for x in l]] *)
Fixpoint map_M {A B} (f : A -> M B) (l : list A) : M (list B) :=
  match l with
  | [] => ret []
  | x :: rest => y <- f x ;; ys <- map_M f rest ;; ret (y :: ys)
  end.

(** [self.data["mastodon_account"]["id"]] *)
Definition my_mastodon_id : M Z :=
  o <- get_self ;;
  match data_mastodon_account (data o) with
  | Some a => ret (account_id a)
  | None => raise KeyError
  end.

(* ------------------------------------------------------------------ *)
(** ** Marker store and fetcher *)
(* ------------------------------------------------------------------ *)

(** [__update_last_id(key, value)]: read-modify-write of the data file. *)
Definition __update_last_id (key : marker_key) (value : Z) : M unit :=
  f <- read_file ;;
  let d := match f with
           | Some d => d
           | None => empty_data
           end in
  write_file (set_marker d key value).

(** [get_new_toots(dry_run, update)].  The whole body after the two reads
    of [self.data] is inside [try ... except Exception], whose handler only
    logs.  [res] is assigned before the marker is written; writing the
    marker does not raise in this model, so the handler is reached only
    when the fetch raises, with [res] still [[]]. *)
Definition get_new_toots (dry_run update : bool) : M (list toot) :=
  my_id <- my_mastodon_id ;;
  o <- get_self ;;
  let last_id := data_last_toot (data o) in
  try_except
    (r <- (if truthy last_id
           then call (mastodon_account_statuses my_id last_id)
           else call (mastodon_account_statuses my_id None)) ;;
     let res := if truthy last_id then r else [] in
     match r with
     | newest :: _ =>
         (if negb dry_run || update
          then __update_last_id Last_toot (t_id newest)
          else ret tt) ;;;
         ret res
     | [] => ret res
     end)
    (ret []).

(** [__store_twoot(toot_id, tweet_id)]: insert at the head of
    [self.twoots]. *)
Definition __store_twoot (toot_id0 tweet_id0 : Z) : M unit :=
  o <- get_self ;;
  put_self (mk_Self (setup o) (max_twoots o)
                    (mk_twoot toot_id0 tweet_id0 :: twoots o) (data o)).

(** The loop of [__find_paired_tweet] over a list of twoots. *)
Fixpoint find_pair (toot_id0 : Z) (l : list twoot) : option Z :=
  match l with
  | [] => None
  | t :: rest =>
      if toot_id t =? toot_id0 then Some (tweet_id t)
      else find_pair toot_id0 rest
  end.

(** [__find_paired_tweet(toot_id)] searches
    [self.twoots + self.data["twoots"]]. *)
Definition __find_paired_tweet (toot_id0 : option Z) : M (option Z) :=
  o <- get_self ;;
  ret match toot_id0 with
      | Some i => find_pair i (twoots o ++ data_twoots (data o))
      | None => None
      end.

(* ------------------------------------------------------------------ *)
(** ** Text transformer: the escaping step of [__html2text] *)
(* ------------------------------------------------------------------ *)

Definition escapeable : list (str * str) :=
  [ (lit (String (ascii_of_nat 10) EmptyString), lit "<br>");
    (lit " ", lit "&nbsp;");
    (lit "\", lit "&#92;");
    (lit "+", lit "&#43;");
    (lit "-", lit "&#45;");
    (lit ".", lit "&#46;") ].

(** [for p in escapeable: html = html.replace(p[0], p[1])]: the text that
    [__html2text] hands to [html2text.HTML2Text.handle]. *)
Definition __html2text_escape (html : str) : str :=
  fold_left (fun h p => replace h (fst p) (snd p)) escapeable html.

(* ------------------------------------------------------------------ *)
(** ** Media relay *)
(* ------------------------------------------------------------------ *)

(** [__download_image(url)] and [__download_video(url)] differ only in the
    word looked for in the content type.  The result is [None] or the
    pair [(r.content, c_type)]. *)
Definition download (kind url : str) : M (option (bytes * str)) :=
  r <- call (requests_get url) ;;
  if negb (status_code r =? 200) then emit (Warn url) ;;; ret None
  else
    match content_type r with
    | None => raise KeyError
    | Some c_type =>
        if negb (contains c_type kind) then emit (Warn url) ;;; ret None
        else ret (Some (content r, c_type))
    end.

Definition __download_image (url : str) : M (option (bytes * str)) :=
  download (lit "image") url.

Definition __download_video (url : str) : M (option (bytes * str)) :=
  download (lit "video") url.

(** One call of [self.twitter_upload.media.upload]. *)
Definition upload (req : upload_request) : M twitter_media :=
  emit (Upload req) ;;; call (twitter_media_upload req).

(** [__post_media_to_twitter(media)].  The assignment
    [img, mime_type = self.__download_image(...)] stands before the [try]:
    unpacking [None] raises [TypeError]. *)
Definition __post_media_to_twitter (m : media) : M (option twitter_media) :=
  if str_eqb (media_type m) (lit "image") then
    d <- __download_image (media_url m) ;;
    match d with
    | None => raise TypeError
    | Some (img, _) =>
        try_except
          (r <- upload (UploadSimple img) ;; ret (Some r))
          (ret None)
    end
  else if str_eqb (media_type m) (lit "gifv") then
    d <- __download_video (media_url m) ;;
    match d with
    | None => raise TypeError
    | Some (video, mime_type) =>
        try_except
          (init_res <- upload (UploadInit (length video) mime_type) ;;
           let media_id := media_id_string init_res in
           upload (UploadAppend media_id video 0) ;;;
           r <- upload (UploadFinalize media_id) ;;
           ret (Some r))
          (ret None)
    end
  else emit (Warn (media_url m)) ;;; ret None.

(* ------------------------------------------------------------------ *)
(** ** Destination client wrappers *)
(* ------------------------------------------------------------------ *)

(** [__tweet(text, in_reply_to_id, media_ids)]: [None] when the client
    raises. *)
Definition __tweet (text : str) (in_reply_to_id : option Z)
    (media_ids : list str) : M (option tweet) :=
  let joined := join (lit ",") media_ids in
  try_except
    (emit (StatusUpdate text in_reply_to_id joined) ;;;
     r <- call (twitter_statuses_update text in_reply_to_id joined) ;;
     ret (Some r))
    (ret None).

(** [__retweet(target_id)] *)
Definition __retweet (target_id : option Z) : M (option tweet) :=
  try_except
    (emit (Retweet target_id) ;;;
     r <- call (twitter_statuses_retweet target_id) ;;
     ret (Some r))
    (ret None).

(* ------------------------------------------------------------------ *)
(** ** Mirror decision engine *)
(* ------------------------------------------------------------------ *)

(** The truncation and assembly block of [create_tweet_from_toot]
    (from [re.search] to the f-string), on the pre-processed text and the
    toot's permalink.  [.group("url")] on a failed search is an attribute
    access on [None]. *)
Definition assemble_text (toot_text permalink : str) : result str :=
  match re_search_url toot_text with
  | None => Raise AttributeError
  | Some toot_links =>
      let toot_reduced := re_sub_url toot_text in
      let string_len :=
        if 0 <? Z.of_nat (length toot_links) then 253 - 23 else 253 in
      let toot_sliced :=
        if string_len <? Z.of_nat (length toot_text)
        then slice_to toot_reduced string_len ++ lit "..."
        else toot_reduced in
      Ok (toot_sliced ++ lit " " ++ toot_links ++ lit " " ++ permalink)
  end.

Definition lift {A} (r : result A) : M A := fun s => (r, s).

(** [[t["toot_id"] for t in self.twoots + self.data["twoots"]]] *)
Definition synced_ids (o : Self) : list Z :=
  map toot_id (twoots o ++ data_twoots (data o)).

(** [create_tweet_from_toot(toot, dry_run)].  The last statement of the
    [if not dry_run:] block calls [self.create_toot_from_tweet], a method
    the class does not define: the attribute lookup raises. *)
Definition create_tweet_from_toot (t : toot) (dry_run : bool) : M unit :=
  my_id <- my_mastodon_id ;;
  o <- get_self ;;
  let toot_id0 := t_id t in
  let synced_toots := synced_ids o in
  (* skip if already forwarded *)
  if mem toot_id0 synced_toots then ret tt
  else
    let in_reply_to_account_id := t_in_reply_to_account_id t in
    (* skip reply for other users *)
    if truthy in_reply_to_account_id
       && negb (opt_eqb in_reply_to_account_id my_id)
    then ret tt
    else
      let in_reply_to_toot_id :=
        if truthy in_reply_to_account_id then t_in_reply_to_id t
        else None in
      match t_reblog t with
      | Some boosted_toot_id =>
          if mem boosted_toot_id synced_toots then
            target_tweet_id <- __find_paired_tweet (Some boosted_toot_id) ;;
            if negb dry_run then
              r <- __retweet target_tweet_id ;;
              match r with
              | Some tw => __store_twoot toot_id0 (tweet_ident tw)
              | None => ret tt
              end
            else ret tt
          else ret tt
      | None =>
          media_ids <-
            (if dry_run then ret []
             else
               twitter_media <-
                 map_M __post_media_to_twitter (t_media_attachments t) ;;
               ret (flat_map
                      (fun m => match m with
                                | Some x => [media_id_string x]
                                | None => []
                                end)
                      twitter_media)) ;;
          toot_text <- call (pre_process (t_content t)) ;;
          text <- lift (assemble_text toot_text (t_url t)) ;;
          if negb dry_run then
            r <- (if mem_opt in_reply_to_toot_id synced_toots
                  then
                    paired <- __find_paired_tweet in_reply_to_toot_id ;;
                    __tweet text paired media_ids
                  else __tweet text None media_ids) ;;
            match r with
            | Some tw => __store_twoot toot_id0 (tweet_ident tw)
            | None => ret tt
            end ;;;
            raise AttributeError
          else ret tt
      end.

(* ------------------------------------------------------------------ *)
(** ** Sync orchestrator *)
(* ------------------------------------------------------------------ *)

(** [toots2tweets(toots, dry_run)]: [for t in reversed(toots)]. *)
Definition toots2tweets (toots : list toot) (dry_run : bool) : M unit :=
  for_each (rev toots) (fun t => create_tweet_from_toot t dry_run).

(** [__save_data()]: the data file is opened for reading first. *)
Definition __save_data : M unit :=
  f <- read_file ;;
  match f with
  | None => raise FileNotFoundError
  | Some d =>
      o <- get_self ;;
      let d1 := set_twoots d (twoots o ++ data_twoots d) in
      let d2 := set_twoots d1 (slice_to (data_twoots d1) (max_twoots o)) in
      write_file d2
  end.

(** [run(dry_run, update)] *)
Definition run (dry_run update : bool) : M unit :=
  o <- get_self ;;
  let dry_run := if dry_run then (if setup o then false else true)
                 else false in
  toots <- get_new_toots dry_run update ;;
  (if negb (setup o) then toots2tweets toots dry_run else ret tt) ;;;
  o' <- get_self ;;
  if (0 <? length (twoots o'))%nat then __save_data else ret tt.

(** [Twoot.__init__(profile, setup)], from the loading of the data file
    on; [max_twoots0] stands for the configuration file, [file] for the
    content of the data file and [w] for the world at that moment.  The
    argument [setup] is not used: the attribute is set to [False].  When
    the verification of an account raises, the exception is raised again
    before anything is written. *)
Definition __init__ (max_twoots0 : Z) (setup : bool)
    (file : option Data) (w : World) : result State :=
  let data0 := match file with
               | Some d => d
               | None => empty_data
               end in
  let step1 :=
    match data_mastodon_account data0 with
    | Some _ => (Ok data0, w)
    | None =>
        match mastodon_account_verify_credentials w with
        | (Ok a, w') =>
            (Ok (mk_Data (data_twoots data0) (Some a)
                         (data_twitter_account data0)
                         (data_last_toot data0) (data_last_tweet data0)),
             w')
        | (Raise e, w') => (Raise e, w')
        end
    end in
  match step1 with
  | (Raise e, _) => Raise e
  | (Ok data1, w1) =>
      let step2 :=
        match data_twitter_account data1 with
        | Some _ => (Ok data1, w1)
        | None =>
            match twitter_account_verify_credentials w1 with
            | (Ok a, w') =>
                (Ok (mk_Data (data_twoots data1)
                             (data_mastodon_account data1) (Some a)
                             (data_last_toot data1) (data_last_tweet data1)),
                 w')
            | (Raise e, w') => (Raise e, w')
            end
        end in
      match step2 with
      | (Raise e, _) => Raise e
      | (Ok data2, w2) =>
          Ok (mk_State (mk_Self false max_twoots0 [] data2)
                       (Some data2) w2 [])
      end
  end.

(** The two statements of [main] that matter here:
    [twoot = Twoot(profile, setup); twoot.run(dry_run, update)]. *)
Definition main (max_twoots0 : Z) (setup dry_run update : bool)
    (file : option Data) (w : World) : result (result unit * State) :=
  match __init__ max_twoots0 setup file w with
  | Ok s => Ok (run dry_run update s)
  | Raise e => Raise e
  end.

End Twoot.

(* ================================================================== *)
(** * Vocabulary of the properties *)
(* ================================================================== *)

(** The mapping history held by a data file; a missing file holds none. *)
Definition file_twoots (f : option Data) : list twoot :=
  match f with
  | Some d => data_twoots d
  | None => []
  end.

(** The persisted markers and mapping history. *)
Definition persisted (f : option Data)
  : option Z * option Z * list twoot :=
  match f with
  | Some d => (data_last_toot d, data_last_tweet d, data_twoots d)
  | None => (None, None, [])
  end.

(** Data files an invocation can find: a file whose history names no toot
    twice (in particular no file at all), and the file left by an earlier
    invocation that got past [__init__], whether its [run] returned or
    raised. *)
Inductive reachable_file {P : Platform} : option Data -> Prop :=
| initial_file :
    forall f, NoDup (map toot_id (file_twoots f)) -> reachable_file f
| after_main :
    forall f max_twoots0 setup0 dry_run update w r s',
      reachable_file f ->
      main max_twoots0 setup0 dry_run update f w = Ok (r, s') ->
      reachable_file (data_file s').

(** States in which the decision engine is entered during an invocation:
    after the fetch, and after each candidate. *)
Inductive in_run {P : Platform} : State -> Prop :=
| run_fetched :
    forall f max_twoots0 setup0 w s0 dry_run update,
      reachable_file f ->
      __init__ max_twoots0 setup0 f w = Ok s0 ->
      in_run (snd (get_new_toots dry_run update s0))
| run_engine :
    forall s t dry_run,
      in_run s ->
      in_run (snd (create_tweet_from_toot t dry_run s)).

(* ------------------------------------------------------------------ *)
(** ** Specifications of computations in [M] *)
(* ------------------------------------------------------------------ *)

Section Assertions.

Context {P : Platform}.

(** [hoare Pre m Post]: from a state in [Pre], the result and final state
    of [m] satisfy [Post], whether [m] returns or raises. *)
Definition hoare {A} (Pre : State -> Prop) (m : M A)
    (Post : result A -> State -> Prop) : Prop :=
  forall s, Pre s -> Post (fst (m s)) (snd (m s)).

(** [quiet m]: [m] leaves [self] and the data file alone; it can only talk
    to the collaborators and log actions. *)
Definition quiet {A} (m : M A) : Prop :=
  forall s, self (snd (m s)) = self s /\ data_file (snd (m s)) = data_file s.

(** The states with the given [self] and data file. *)
Definition at_ (o : Self) (f : option Data) (s : State) : Prop :=
  self s = o /\ data_file s = f.

(** After one candidate: the data file is as before, and [self] is either
    as before or has exactly one more twoot, for this toot, at the head of
    [self.twoots]; the latter only outside dry runs, only for a toot that
    was not yet synced, and, for a toot that is not a boost, only together
    with the [AttributeError] of the missing method. *)
Definition engine_post (o : Self) (f : option Data) (t : toot)
    (dry_run : bool) (r : result unit) (s' : State) : Prop :=
  data_file s' = f /\
  (self s' = o \/
   (dry_run = false /\ mem (t_id t) (synced_ids o) = false /\
    (exists tw,
        self s' = mk_Self (setup o) (max_twoots o)
                          (mk_twoot (t_id t) tw :: twoots o) (data o)) /\
    (t_reblog t = None -> r = Raise AttributeError))).

(** After the fetch: [self] is as before, and the data file is as before
    or has a new marker [last_toot], the latter only outside pure dry
    runs. *)
Definition fetch_post (o : Self) (f : option Data)
    (dry_run update : bool) (s' : State) : Prop :=
  self s' = o
  /\ (data_file s' = f
      \/ (negb dry_run || update = true
          /\ exists v,
              data_file s'
              = Some (set_marker
                        match f with
                        | Some d => d
                        | None => empty_data
                        end Last_toot v))).

(** The invariant of a run between two candidates: the searched
    concatenation has no toot twice, the history in the data file is the
    one loaded at start-up, and the own account is known. *)
Definition coherent (s : State) : Prop :=
  NoDup (synced_ids (self s))
  /\ (exists d, data_file s = Some d
                /\ data_twoots d = data_twoots (data (self s)))
  /\ data_mastodon_account (data (self s)) <> None.

End Assertions.

(* ------------------------------------------------------------------ *)
(** ** The truncation rule as the specification words it *)
(* ------------------------------------------------------------------ *)

(** The text with its first URL token removed. *)
Fixpoint remove_first_url (s : str) : str :=
  match url_at s with
  | Some (_, rest) => rest
  | None =>
      match s with
      | [] => []
      | c :: s' => c :: remove_first_url s'
      end
  end.

(** Specification side of the truncation rule: budget 230; the text with
    the first URL removed is cut and given an ellipsis exactly when it
    exceeds the budget; then text, space, URL, space, permalink. *)
Definition spec_assemble_text (toot_text permalink : str) : option str :=
  match re_search_url toot_text with
  | None => None
  | Some u =>
      let body := remove_first_url toot_text in
      let cut := if (230 <? length body)%nat
                 then firstn 230 body ++ lit "..."
                 else body in
      Some (cut ++ lit " " ++ u ++ lit " " ++ permalink)
  end.

(* ------------------------------------------------------------------ *)
(** ** Placeholders of the escaping step *)
(* ------------------------------------------------------------------ *)

(** The placeholder of one character; other characters stand for
    themselves. *)
Definition esc_char (c : N) : str :=
  if (c =? 10)%N then lit "<br>"
  else if (c =? 32)%N then lit "&nbsp;"
  else if (c =? 92)%N then lit "&#92;"
  else if (c =? 43)%N then lit "&#43;"
  else if (c =? 45)%N then lit "&#45;"
  else if (c =? 46)%N then lit "&#46;"
  else [c].

(** The placeholder standing at the head of [s], if any: the text it
    stands for and its length. *)
Fixpoint token_at (table : list (str * str)) (s : str)
  : option (str * nat) :=
  match table with
  | [] => None
  | (c, tok) :: rest =>
      if starts_with tok s then Some (c, length tok)
      else token_at rest s
  end.

(** Modelled from the spec: the part of the HTML-to-text conversion
    ([html2text.HTML2Text.handle], a library outside the repository) that
    "restores them as ordinary characters": every placeholder, read from
    the left, becomes the character it stands for. *)
Fixpoint restore_go (skip : nat) (s : str) : str :=
  match s with
  | [] => []
  | c :: s' =>
      match skip with
      | S k => restore_go k s'
      | O =>
          match token_at escapeable s with
          | Some (orig, n) => orig ++ restore_go (Nat.pred n) s'
          | None => c :: restore_go O s'
          end
      end
  end.

Definition restore (s : str) : str := restore_go O s.

(** No placeholder occurs in [s]. *)
Definition token_free (s : str) : bool :=
  forallb (fun p => negb (contains s (snd p))) escapeable.

(** A character that opens no placeholder: neither [&] nor [<]. *)
Definition ordinary (x : N) : Prop := x <> 38%N /\ x <> 60%N.

(* ------------------------------------------------------------------ *)
(** ** A small concrete world *)
(* ------------------------------------------------------------------ *)

(** A deterministic collaborator for concrete runs: the source timeline is
    [timeline] whatever the marker, every download answers [http], text
    rendering is the identity, and the destination hands out the
    identifiers 100, 101, ... in the order of the posts it creates. *)
Definition toy (timeline : list toot) (http : response) : Platform := {|
  World := Z;
  mastodon_account_verify_credentials := fun w => (Ok (mk_account 1), w);
  twitter_account_verify_credentials := fun w => (Ok (mk_account 2), w);
  mastodon_account_statuses := fun _ _ w => (Ok timeline, w);
  requests_get := fun _ w => (Ok http, w);
  twitter_media_upload :=
    fun _ w => (Ok (mk_twitter_media (lit "m")), w);
  twitter_statuses_update := fun _ _ _ w => (Ok (mk_tweet w), w + 1);
  twitter_statuses_retweet := fun _ w => (Ok (mk_tweet w), w + 1);
  pre_process := fun html w => (Ok html, w)
|}.

Definition http_ok : response :=
  mk_response 200 (Some (lit "image/png")) [].

Definition http_not_found : response :=
  mk_response 404 (Some (lit "text/html")) [].

(** A data file as left by an earlier invocation: both accounts known,
    marker [last], history [tw]. *)
Definition seeded (last : Z) (tw : list twoot) : Data :=
  mk_Data tw (Some (mk_account 1)) (Some (mk_account 2)) (Some last) None.

Definition permalink_of (i : Z) : str :=
  lit "https://ribeiro.social/@justin/" ++ [(48 + Z.to_N i)%N].

(** A toot with text only: no reply, no boost, no media. *)
Definition text_toot (i : Z) (text : str) : toot :=
  mk_toot i None None None [] text (permalink_of i).

(** One new plain toot with a link. *)
Definition toy_plain : Platform :=
  toy [text_toot 7 (lit "hello https://a.b")] http_ok.

(** One new plain toot without any link. *)
Definition toy_no_url : Platform :=
  toy [text_toot 7 (lit "hello world")] http_ok.

(** One new toot, a boost of the own toot 5. *)
Definition toy_boost : Platform :=
  toy [mk_toot 8 None None (Some 5) [] [] (permalink_of 8)] http_ok.

(** A thread of two new toots, newest first: toot 7 and the self reply 8
    to it (the owner's account is 1). *)
Definition toy_thread : Platform :=
  toy [mk_toot 8 (Some 1) (Some 7) None [] (lit "second https://a.b")
               (permalink_of 8);
       text_toot 7 (lit "first https://a.b")]
      http_ok.

(** An image attachment whose download answers 404. *)
Definition broken_image : media :=
  mk_media (lit "image") (lit "https://ribeiro.social/media/1.png").

(** The object [__init__] builds for [toy_boost] from a data file whose
    history pairs toot 5 with tweet 50. *)
Definition boost_start : @State toy_boost :=
  @mk_State toy_boost
    (mk_Self false 5 [] (seeded 1 [mk_twoot 5 50]))
    (Some (seeded 1 [mk_twoot 5 50])) 100 [].

(** Two batches of three boosts each, for two successive invocations. *)
Definition toy_boosts_1 : Platform :=
  toy [mk_toot 13 None None (Some 1) [] [] (permalink_of 3);
       mk_toot 12 None None (Some 2) [] [] (permalink_of 2);
       mk_toot 11 None None (Some 1) [] [] (permalink_of 1)]
      http_ok.

Definition toy_boosts_2 : Platform :=
  toy [mk_toot 16 None None (Some 13) [] [] (permalink_of 6);
       mk_toot 15 None None (Some 2) [] [] (permalink_of 5);
       mk_toot 14 None None (Some 11) [] [] (permalink_of 4)]
      http_ok.

Definition toy_broken_image : Platform :=
  toy [mk_toot 7 None None None [broken_image] (lit "look https://a.b")
               (permalink_of 7)]
      http_not_found.

(* ------------------------------------------------------------------ *)
(** ** Further vocabulary *)
(* ------------------------------------------------------------------ *)

(** The dict a read-modify-write of the data file starts from: the one in
    the file, or [{"twoots": []}] when there is no file. *)
Definition file_data (f : option Data) : Data :=
  match f with
  | Some d => d
  | None => empty_data
  end.

(** [d.get(key)] for one of the two markers. *)
Definition get_marker (d : Data) (key : marker_key) : option Z :=
  match key with
  | Last_toot => data_last_toot d
  | Last_tweet => data_last_tweet d
  end.

(** What [[^\s]] matches. *)
Definition nonspace (c : N) : bool := negb (isspace c).

(** The six characters that [__html2text] escapes. *)
Definition escaped_chars : list N := [10; 32; 92; 43; 45; 46]%N.

Section FurtherAssertions.

Context {P : Platform}.

(** [no_mirror m]: [m] performs no observable action and leaves [self]
    alone, so it records no mapping; it may write the data file. *)
Definition no_mirror {A} (m : M A) : Prop :=
  forall s, actions (snd (m s)) = actions s /\ self (snd (m s)) = self s.

(** The tweet a new post has to answer, as the history tells it: the tweet
    paired with the parent of a self reply, if there is one. *)
Definition reply_target (o : Self) (t : toot) : option Z :=
  if truthy (t_in_reply_to_account_id t) then
    match t_in_reply_to_id t with
    | Some parent => find_pair parent (twoots o ++ data_twoots (data o))
    | None => None
    end
  else None.

(** The state in which [run] starts on a data file [d] that already holds
    both accounts: what [__init__] builds without asking the platforms. *)
Definition started (max_twoots0 : Z) (d : Data) (w : World) : State :=
  mk_State (mk_Self false max_twoots0 [] d) (Some d) w [].

End FurtherAssertions.

(* ------------------------------------------------------------------ *)
(** ** The disabled direction: [get_new_tweets] *)
(* ------------------------------------------------------------------ *)

Section ReverseFetch.

Context {P : Platform}.

(** [self.twitter.statuses.user_timeline(user_id, since_id, tweet_mode)],
    a call the collaborators above do not need. *)
Variable twitter_statuses_user_timeline :
  Z -> option Z -> World -> result (list tweet) * World.

(** [get_new_tweets(dry_run, update)]: as [get_new_toots], on the other
    account, the other timeline and the other marker. *)
Definition get_new_tweets (dry_run update : bool) : M (list tweet) :=
  bind get_self (fun o =>
  match data_twitter_account (data o) with
  | None => raise KeyError
  | Some acc =>
      let my_id := account_id acc in
      let last_id := data_last_tweet (data o) in
      try_except
        (bind (if truthy last_id
               then call (twitter_statuses_user_timeline my_id last_id)
               else call (twitter_statuses_user_timeline my_id None))
           (fun r =>
              let res := if truthy last_id then r else [] in
              match r with
              | newest :: _ =>
                  bind (if negb dry_run || update
                        then __update_last_id Last_tweet (tweet_ident newest)
                        else ret tt)
                       (fun _ => ret res)
              | [] => ret res
              end))
        (ret [])
  end).

End ReverseFetch.

(* ------------------------------------------------------------------ *)
(** ** More concrete worlds *)
(* ------------------------------------------------------------------ *)

(** Both platforms and the network are down: every call raises. *)
Definition toy_down : Platform := {|
  World := Z;
  mastodon_account_verify_credentials := fun w => (Raise ClientError, w);
  twitter_account_verify_credentials := fun w => (Raise ClientError, w);
  mastodon_account_statuses := fun _ _ w => (Raise ClientError, w);
  requests_get := fun _ w => (Raise ClientError, w);
  twitter_media_upload := fun _ w => (Raise ClientError, w);
  twitter_statuses_update := fun _ _ _ w => (Raise ClientError, w);
  twitter_statuses_retweet := fun _ w => (Raise ClientError, w);
  pre_process := fun _ w => (Raise ClientError, w)
|}.

(** The source timeline is empty. *)
Definition toy_quiet : Platform := toy [] http_ok.

Definition http_video : response :=
  mk_response 200 (Some (lit "video/mp4")) [1; 2; 3]%N.

(** Downloads answer with a video. *)
Definition toy_video : Platform := toy [] http_video.

(** A data file without marker: both accounts known, nothing else. *)
Definition unseeded : Data :=
  mk_Data [] (Some (mk_account 1)) (Some (mk_account 2)) None None.

(** The boost of toy_boost, the self reply of toy_thread, and a reply to
    the account 9 of somebody else. *)
Definition boost_toot : toot :=
  mk_toot 8 None None (Some 5) [] [] (permalink_of 8).

Definition reply_toot : toot :=
  mk_toot 8 (Some 1) (Some 7) None [] (lit "second https://a.b")
          (permalink_of 8).

Definition foreign_reply_toot : toot :=
  mk_toot 7 (Some 9) (Some 3) None [] (lit "hi https://a.b")
          (permalink_of 7).

Definition good_image : media :=
  mk_media (lit "image") (lit "https://ribeiro.social/media/2.png").

Definition clip : media :=
  mk_media (lit "gifv") (lit "https://ribeiro.social/media/3.mp4").

Definition audio : media :=
  mk_media (lit "audio") (lit "https://ribeiro.social/media/4.ogg").

(* ================================================================== *)
(** * Properties of the text functions *)
(* ================================================================== *)

Unset Implicit Arguments.

Section TextFacts.

Lemma url_tail_nonempty :
  forall scheme s u rest,
    url_tail scheme s = Some (u, rest) -> (length scheme < length u)%nat.
Proof.
  unfold url_tail; intros scheme s u rest H.
  destruct (span_nonspace s) as [[|c run] r]; [discriminate|].
  simpl in H. injection H as <- _. rewrite length_app; simpl; lia.
Qed.

Lemma url_at_nonempty :
  forall s u rest, url_at s = Some (u, rest) -> (0 < length u)%nat.
Proof.
  unfold url_at; intros s u rest H.
  destruct (strip_prefix (lit "http") s) as [r|]; [|discriminate].
  destruct (strip_prefix (lit "s") r) as [r1|].
  - destruct (strip_prefix (lit "://") r1) as [r2|].
    + destruct (url_tail (lit "https://") r2) as [[u' rest']|] eqn:E.
      * injection H as -> ->. apply url_tail_nonempty in E; lia.
      * destruct (strip_prefix (lit "://") r) as [r3|]; [|discriminate].
        apply url_tail_nonempty in H; lia.
    + destruct (strip_prefix (lit "://") r) as [r3|]; [|discriminate].
      apply url_tail_nonempty in H; lia.
  - destruct (strip_prefix (lit "://") r) as [r3|]; [|discriminate].
    apply url_tail_nonempty in H; lia.
Qed.

Lemma re_search_url_nonempty :
  forall s u, re_search_url s = Some u -> (0 < length u)%nat.
Proof.
  induction s as [|c s IH]; intros u H; cbn [re_search_url] in H.
  - destruct (url_at []) as [[u' r]|] eqn:E; [|discriminate].
    injection H as ->. eapply url_at_nonempty; eauto.
  - destruct (url_at (c :: s)) as [[u' r]|] eqn:E.
    + injection H as ->. eapply url_at_nonempty; eauto.
    + auto.
Qed.

Lemma re_sub_url_go_length :
  forall s k, (length (re_sub_url_go k s) <= length s)%nat.
Proof.
  induction s as [|c s IH]; intros k; cbn [re_sub_url_go length]; [lia|].
  destruct k as [|k].
  - destruct (url_at (c :: s)) as [[u r]|].
    + specialize (IH (Nat.pred (length u))); lia.
    + simpl; specialize (IH O); lia.
  - specialize (IH k); lia.
Qed.

Lemma re_sub_url_length :
  forall s, (length (re_sub_url s) <= length s)%nat.
Proof. intros s; apply re_sub_url_go_length. Qed.

End TextFacts.

(** C3 (amended).  For every rendered text with at least one URL token the
    assembled tweet text is: a body, a space, the first URL token, a space
    and the permalink.  The body is the rendered text with every URL token
    deleted; when that body is longer than the budget of 253 - 23 = 230
    characters it is cut to its first 230 characters followed by an
    ellipsis; when the whole rendered text has at most 230 characters the
    body is left as it is.  In all cases the body part has at most 233
    characters.  (How a text longer than 230 whose URL-free body fits the
    budget is treated is left open here.) *)
Theorem assemble_text_with_url :
  forall toot_text permalink u,
    re_search_url toot_text = Some u ->
    exists cut,
      assemble_text toot_text permalink
      = Ok (cut ++ lit " " ++ u ++ lit " " ++ permalink)
      /\ ((230 < length (re_sub_url toot_text))%nat ->
          cut = firstn 230 (re_sub_url toot_text) ++ lit "...")
      /\ ((length toot_text <= 230)%nat -> cut = re_sub_url toot_text)
      /\ (length cut <= 233)%nat.
Proof.
  intros toot_text permalink u Hu.
  pose proof (re_search_url_nonempty _ _ Hu) as Hlen.
  pose proof (re_sub_url_length toot_text) as Hsub.
  unfold assemble_text; rewrite Hu.
  replace (0 <? Z.of_nat (length u)) with true
    by (symmetry; apply Z.ltb_lt; lia).
  change (253 - 23) with 230.
  unfold slice_to; change (0 <=? 230) with true; cbv iota.
  change (Z.to_nat 230) with 230%nat.
  destruct (230 <? Z.of_nat (length toot_text)) eqn:E.
  - apply Z.ltb_lt in E.
    exists (firstn 230 (re_sub_url toot_text) ++ lit "...").
    repeat split; auto.
    + intros; lia.
    + rewrite length_app, length_firstn.
      change (length (lit "...")) with 3%nat. lia.
  - apply Z.ltb_ge in E.
    exists (re_sub_url toot_text).
    repeat split; auto.
    + intros; lia.
    + lia.
Qed.

(** The test that decides on the ellipsis reads the length of the whole
    rendered text, URL tokens included, not the length of the body that is
    cut. *)
Lemma assemble_text_ellipsis_test :
  forall toot_text permalink u,
    re_search_url toot_text = Some u ->
    assemble_text toot_text permalink
    = Ok ((if (230 <? length toot_text)%nat
           then firstn 230 (re_sub_url toot_text) ++ lit "..."
           else re_sub_url toot_text)
          ++ lit " " ++ u ++ lit " " ++ permalink).
Proof.
  intros toot_text permalink u Hu.
  pose proof (re_search_url_nonempty _ _ Hu) as Hlen.
  unfold assemble_text; rewrite Hu.
  replace (0 <? Z.of_nat (length u)) with true
    by (symmetry; apply Z.ltb_lt; lia).
  change (253 - 23) with 230.
  unfold slice_to; change (0 <=? 230) with true; cbv iota.
  change (Z.to_nat 230) with 230%nat.
  destruct (230 <? Z.of_nat (length toot_text)) eqn:E.
  - apply Z.ltb_lt in E.
    replace (230 <? length toot_text)%nat with true
      by (symmetry; apply Nat.ltb_lt; lia).
    reflexivity.
  - apply Z.ltb_ge in E.
    replace (230 <? length toot_text)%nat with false
      by (symmetry; apply Nat.ltb_ge; lia).
    reflexivity.
Qed.

(** C4 (the code fails the claim).  For every rendered text without any
    URL token, the truncation-and-assembly step raises [AttributeError]:
    [re.search] returns [None] and [.group("url")] is applied to it. *)
Theorem assemble_text_without_url :
  forall toot_text permalink,
    re_search_url toot_text = None ->
    assemble_text toot_text permalink = Raise AttributeError.
Proof. intros t p H; unfold assemble_text; rewrite H; reflexivity. Qed.

Section Placeholders.

Lemma replace_single :
  forall c new s,
    replace s [c] new
    = flat_map (fun x => if (c =? x)%N then new else [x]) s.
Proof.
  intros c new s; unfold replace.
  induction s as [|a s IH]; [reflexivity|].
  cbn [replace_go flat_map starts_with length Nat.pred].
  rewrite andb_true_r.
  destruct (c =? a)%N; rewrite IH; reflexivity.
Qed.

Lemma flat_map_compose :
  forall (A B C : Type) (f : A -> list B) (g : B -> list C) l,
    flat_map g (flat_map f l) = flat_map (fun x => flat_map g (f x)) l.
Proof.
  intros A B C f g l; induction l as [|a l IH]; [reflexivity|].
  cbn [flat_map]. rewrite flat_map_app, IH. reflexivity.
Qed.

Lemma escape_unfold :
  forall html,
    __html2text_escape html
    = replace (replace (replace (replace (replace (replace html
        [10%N] (lit "<br>")) [32%N] (lit "&nbsp;")) [92%N] (lit "&#92;"))
        [43%N] (lit "&#43;")) [45%N] (lit "&#45;")) [46%N] (lit "&#46;").
Proof. reflexivity. Qed.

(** The six replacements in sequence amount to one pass that replaces each
    character by its placeholder: no placeholder contains a character that
    a later replacement touches. *)
Lemma escape_flat_map :
  forall html, __html2text_escape html = flat_map esc_char html.
Proof.
  intros html. rewrite escape_unfold, !replace_single, !flat_map_compose.
  apply flat_map_ext; intros x. unfold esc_char.
  rewrite !(N.eqb_sym x).
  destruct (10 =? x)%N; [reflexivity|].
  cbn [flat_map app].
  destruct (32 =? x)%N; [reflexivity|].
  cbn [flat_map app].
  destruct (92 =? x)%N; [reflexivity|].
  cbn [flat_map app].
  destruct (43 =? x)%N; [reflexivity|].
  cbn [flat_map app].
  destruct (45 =? x)%N; [reflexivity|].
  cbn [flat_map app].
  destruct (46 =? x)%N; reflexivity.
Qed.

Lemma esc_char_cases :
  forall d,
    esc_char d = [d]
    \/ exists h t, esc_char d = h :: t /\ (h = 38%N \/ h = 60%N).
Proof.
  intros d; unfold esc_char.
  repeat match goal with
         | |- context [(d =? ?k)%N] =>
             destruct (d =? k)%N;
             [right; eexists; eexists; split; [reflexivity|]; auto|]
         end.
  left; reflexivity.
Qed.

Lemma starts_with_escaped :
  forall tl s,
    Forall ordinary tl ->
    starts_with tl (flat_map esc_char s) = true ->
    starts_with tl s = true.
Proof.
  induction tl as [|x tl IH]; intros s Hall H; [reflexivity|].
  inversion Hall as [|? ? [Hx1 Hx2] Htl]; subst.
  destruct s as [|d s]; [discriminate H|].
  cbn [flat_map] in H.
  destruct (esc_char_cases d) as [E|(h & t & E & Hh)]; rewrite E in H.
  - cbn [app starts_with] in H |- *.
    apply andb_true_iff in H as [H1 H2].
    rewrite H1; cbn [andb]. apply IH; assumption.
  - cbn [app starts_with] in H.
    apply andb_true_iff in H as [H1 _].
    apply N.eqb_eq in H1. destruct Hh; congruence.
Qed.

Lemma tokens_shape :
  forall p, In p escapeable ->
    exists t0 tl, snd p = t0 :: tl /\ Forall ordinary tl.
Proof.
  intros p Hp. unfold escapeable in Hp. cbn [In] in Hp.
  repeat destruct Hp as [<-|Hp];
    try (eexists; eexists; split; [reflexivity|];
         repeat constructor; discriminate).
  contradiction.
Qed.

Lemma token_at_none :
  forall table s,
    (forall p, In p table -> starts_with (snd p) s = false) ->
    token_at table s = None.
Proof.
  induction table as [|[c tok] table IH]; intros s H; [reflexivity|].
  cbn [token_at].
  pose proof (H (c, tok) (or_introl eq_refl)) as Hhead.
  cbn [snd] in Hhead. rewrite Hhead.
  apply IH; intros p Hp; apply H; right; assumption.
Qed.

Lemma token_free_cons :
  forall c s, token_free (c :: s) = true ->
    token_free s = true
    /\ forall p, In p escapeable -> starts_with (snd p) (c :: s) = false.
Proof.
  unfold token_free; intros c s H.
  rewrite forallb_forall in H. split.
  - apply forallb_forall; intros p Hp. specialize (H p Hp).
    apply negb_true_iff in H. cbn [contains] in H.
    apply orb_false_iff in H as [_ H]. rewrite H; reflexivity.
  - intros p Hp. specialize (H p Hp).
    apply negb_true_iff in H. cbn [contains] in H.
    apply orb_false_iff in H as [H _]. exact H.
Qed.

Lemma restore_go_skip :
  forall a r, restore_go (length a) (a ++ r) = restore_go O r.
Proof.
  induction a as [|x a IH]; intros r; [reflexivity|].
  cbn [length app restore_go]. apply IH.
Qed.

Lemma restore_escaped :
  forall s, token_free s = true -> restore (flat_map esc_char s) = s.
Proof.
  unfold restore.
  induction s as [|c s IH]; intros Hfree; [reflexivity|].
  apply token_free_cons in Hfree as [Hs Hc].
  specialize (IH Hs). cbn [flat_map].
  unfold esc_char at 1.
  repeat match goal with
         | |- context [(c =? ?k)%N] =>
             destruct (N.eqb_spec c k);
             [subst c; cbn; rewrite IH; reflexivity|]
         end.
  cbn [app restore_go].
  rewrite token_at_none; [rewrite IH; reflexivity|].
  intros p Hp.
  destruct (tokens_shape p Hp) as (t0 & tl & E & Hall).
  specialize (Hc p Hp). rewrite E in Hc |- *.
  cbn [starts_with] in Hc |- *.
  destruct (t0 =? c)%N; [|reflexivity]. cbn [andb] in Hc |- *.
  destruct (starts_with tl (flat_map esc_char s)) eqn:F; [|reflexivity].
  apply starts_with_escaped in F; [congruence|assumption].
Qed.

End Placeholders.

(** C10 (amended).  For every input that does not already contain one of
    the six placeholders, the escaping step replaces each line break,
    space, backslash, plus, hyphen and period by its placeholder and keeps
    every other character; turning the placeholders back into their
    characters restores the input exactly, and no other placeholder-free
    input has the same escaped text. *)
Theorem html2text_escape_exact_without_tokens :
  forall html,
    token_free html = true ->
    __html2text_escape html = flat_map esc_char html
    /\ restore (__html2text_escape html) = html
    /\ forall html',
        token_free html' = true ->
        __html2text_escape html' = __html2text_escape html ->
        html' = html.
Proof.
  intros html Hfree. split; [apply escape_flat_map|].
  assert (forall h, token_free h = true ->
                    restore (__html2text_escape h) = h) as Hrt
      by (intros h Hh; rewrite escape_flat_map; apply restore_escaped, Hh).
  split; [apply Hrt, Hfree|].
  intros html' Hfree' E.
  rewrite <- (Hrt html' Hfree'), E. apply Hrt, Hfree.
Qed.

(* ================================================================== *)
(** * A small program logic for [M] *)
(* ================================================================== *)

Section Logic.

Context {P : Platform}.

Lemma hoare_bind :
  forall A B (Pre Mid : State -> Prop) (Post : result B -> State -> Prop)
         (m : M A) (k : A -> M B),
    hoare Pre m (fun _ s => Mid s) ->
    (forall e s, Mid s -> Post (Raise e) s) ->
    (forall a, hoare Mid (k a) Post) ->
    hoare Pre (bind m k) Post.
Proof.
  intros A B Pre Mid Post m k Hm Hraise Hk s Hs.
  specialize (Hm s Hs). unfold bind.
  destruct (m s) as [[a|e] s1]; cbn [fst snd] in *.
  - apply Hk; assumption.
  - apply Hraise; assumption.
Qed.

Lemma hoare_get_self :
  forall B o f (Post : result B -> State -> Prop) (k : Self -> M B),
    hoare (at_ o f) (k o) Post ->
    hoare (at_ o f) (bind get_self k) Post.
Proof.
  intros B o f Post k Hk s Hs. unfold bind, get_self.
  destruct Hs as [Ho Hf]. rewrite Ho. apply Hk. split; assumption.
Qed.

Lemma quiet_hoare :
  forall A (m : M A) o f, quiet m -> hoare (at_ o f) m (fun _ s => at_ o f s).
Proof.
  intros A m o f Hq s [Ho Hf]. destruct (Hq s) as [H1 H2].
  split; congruence.
Qed.

Lemma hoare_bind_quiet :
  forall A B o f (Post : result B -> State -> Prop) (m : M A) (k : A -> M B),
    quiet m ->
    (forall e s, at_ o f s -> Post (Raise e) s) ->
    (forall a, hoare (at_ o f) (k a) Post) ->
    hoare (at_ o f) (bind m k) Post.
Proof.
  intros A B o f Post m k Hq Hraise Hk.
  apply hoare_bind with (Mid := at_ o f); auto using quiet_hoare.
Qed.

Lemma hoare_try_except :
  forall A (Pre Q : State -> Prop) (m h : M A),
    hoare Pre m (fun _ s => Q s) ->
    hoare Q h (fun _ s => Q s) ->
    hoare Pre (try_except m h) (fun _ s => Q s).
Proof.
  intros A Pre Q m h Hm Hh s Hs. specialize (Hm s Hs). unfold try_except.
  destruct (m s) as [[a|e] s1]; cbn [fst snd] in *.
  - assumption.
  - apply Hh; assumption.
Qed.

(** *** Quiet computations *)

Lemma quiet_ret : forall A (a : A), quiet (ret a).
Proof. intros A a s; split; reflexivity. Qed.

Lemma quiet_raise : forall A e, quiet (@raise P A e).
Proof. intros A e s; split; reflexivity. Qed.

Lemma quiet_lift : forall A (r : result A), quiet (lift r).
Proof. intros A r s; split; reflexivity. Qed.

Lemma quiet_get_self : quiet get_self.
Proof. intros s; split; reflexivity. Qed.

Lemma quiet_read_file : quiet read_file.
Proof. intros s; split; reflexivity. Qed.

Lemma quiet_emit : forall a, quiet (emit a).
Proof. intros a s; split; reflexivity. Qed.

Lemma quiet_call :
  forall A (op : World -> result A * World), quiet (call op).
Proof.
  intros A op s; unfold call. destruct (op (world s)); split; reflexivity.
Qed.

Lemma quiet_bind :
  forall A B (m : M A) (k : A -> M B),
    quiet m -> (forall a, quiet (k a)) -> quiet (bind m k).
Proof.
  intros A B m k Hm Hk s. unfold bind.
  destruct (Hm s) as [H1 H2].
  destruct (m s) as [[a|e] s1]; cbn [fst snd] in *.
  - destruct (Hk a s1) as [H3 H4]. split; congruence.
  - split; assumption.
Qed.

Lemma quiet_try_except :
  forall A (m h : M A), quiet m -> quiet h -> quiet (try_except m h).
Proof.
  intros A m h Hm Hh s. unfold try_except.
  destruct (Hm s) as [H1 H2].
  destruct (m s) as [[a|e] s1]; cbn [fst snd] in *.
  - split; assumption.
  - destruct (Hh s1) as [H3 H4]. split; congruence.
Qed.

Lemma quiet_map_M :
  forall A B (f : A -> M B) l,
    (forall x, quiet (f x)) -> quiet (map_M f l).
Proof.
  intros A B f l Hf; induction l as [|x l IH]; cbn [map_M].
  - apply quiet_ret.
  - apply quiet_bind; [apply Hf|intros y].
    apply quiet_bind; [apply IH|intros ys]. apply quiet_ret.
Qed.

Lemma quiet_for_each :
  forall A (body : A -> M unit) l,
    (forall x, quiet (body x)) -> quiet (for_each l body).
Proof.
  intros A body l Hb; induction l as [|x l IH]; cbn [for_each].
  - apply quiet_ret.
  - apply quiet_bind; [apply Hb|intros _; apply IH].
Qed.

Create HintDb quiet.
#[local] Hint Resolve quiet_ret quiet_raise quiet_lift quiet_get_self
  quiet_read_file quiet_emit quiet_call quiet_map_M quiet_for_each : quiet.

(** Decompose a computation along its binds and case distinctions. *)
Ltac quiet_step :=
  match goal with
  | |- quiet (bind _ _) => apply quiet_bind; [|intros ?]
  | |- quiet (try_except _ _) => apply quiet_try_except
  | |- quiet (if ?b then _ else _) => destruct b
  | |- quiet (match ?x with _ => _ end) => destruct x
  | |- forall _, _ => intros ?
  | |- quiet _ => solve [auto with quiet]
  end.

Ltac quiet_tac := repeat quiet_step.

Lemma quiet_my_mastodon_id : quiet my_mastodon_id.
Proof. unfold my_mastodon_id; quiet_tac. Qed.

Lemma quiet_find_paired_tweet : forall i, quiet (__find_paired_tweet i).
Proof. intros i; unfold __find_paired_tweet; quiet_tac. Qed.

Lemma quiet_download : forall kind url, quiet (download kind url).
Proof. intros kind url; unfold download; quiet_tac. Qed.

Lemma quiet_upload : forall req, quiet (upload req).
Proof. intros req; unfold upload; quiet_tac. Qed.

#[local] Hint Resolve quiet_my_mastodon_id quiet_find_paired_tweet
  quiet_download quiet_upload : quiet.

Lemma quiet_post_media_to_twitter :
  forall m, quiet (__post_media_to_twitter m).
Proof.
  intros m; unfold __post_media_to_twitter, __download_image,
    __download_video; quiet_tac.
Qed.

Lemma quiet_tweet :
  forall text i ids, quiet (__tweet text i ids).
Proof. intros text i ids; unfold __tweet; quiet_tac. Qed.

Lemma quiet_retweet : forall i, quiet (__retweet i).
Proof. intros i; unfold __retweet; quiet_tac. Qed.

#[local] Hint Resolve quiet_post_media_to_twitter quiet_tweet
  quiet_retweet : quiet.


(** *** What the decision engine does to [self] and to the data file *)

Lemma engine_post_at :
  forall o f t dry_run r s, at_ o f s -> engine_post o f t dry_run r s.
Proof. intros o f t dry_run r s [Ho Hf]; split; auto. Qed.

(** Decompose a computation whose steps are quiet; [weaken] proves the
    postcondition from [at_ o f]. *)
Ltac hoare_step weaken :=
  match goal with
  | |- hoare _ (bind get_self _) _ => apply hoare_get_self
  | |- hoare _ (bind _ _) _ =>
      apply hoare_bind_quiet;
      [solve [quiet_tac]
      |intros ? ? ?; apply weaken; assumption
      |intros ?]
  | |- hoare _ (ret _) _ =>
      intros ? ?; apply weaken; assumption
  | |- hoare _ (if ?b then _ else _) _ => destruct b eqn:?
  | |- hoare _ (match ?x with _ => _ end) _ => destruct x eqn:?
  end.

Lemma engine_hoare :
  forall t dry_run o f,
    hoare (at_ o f) (create_tweet_from_toot t dry_run)
          (engine_post o f t dry_run).
Proof.
  intros t dry_run o f. unfold create_tweet_from_toot.
  destruct dry_run; cbn [negb]; cbv zeta;
    repeat hoare_step engine_post_at.
  - (* a boost of a synced toot was retweeted *)
    intros s [Ho Hf]. cbn. split; [assumption|right].
    rewrite Ho. repeat split; auto.
    + eexists; reflexivity.
    + congruence.
  - (* a plain toot or self reply went through [__tweet] *)
    intros s [Ho Hf].
    match goal with
    | |- context [match ?r with Some _ => _ | None => _ end] =>
        destruct r as [tw|]
    end; cbn.
    + split; [assumption|right]. rewrite Ho. repeat split; auto.
      eexists; reflexivity.
    + split; [assumption|left; assumption].
Qed.

(** The engine on one candidate, in terms of the state before. *)
Lemma engine_effect :
  forall t dry_run s,
    engine_post (self s) (data_file s) t dry_run
                (fst (create_tweet_from_toot t dry_run s))
                (snd (create_tweet_from_toot t dry_run s)).
Proof. intros t dry_run s; apply engine_hoare; split; reflexivity. Qed.

Lemma quiet_engine_dry : forall t, quiet (create_tweet_from_toot t true).
Proof.
  intros t s. destruct (engine_effect t true s) as [Hf [Ho|[Hd _]]].
  - split; assumption.
  - discriminate.
Qed.


(** *** The fetcher *)

(** [get_new_toots] never touches [self]; it writes the data file only
    outside pure dry runs, and then only the marker [last_toot]. *)
Lemma fetch_post_at :
  forall o f dry_run update s,
    at_ o f s -> fetch_post o f dry_run update s.
Proof. intros o f dry_run update s [Ho Hf]; split; auto. Qed.

Lemma fetch_hoare :
  forall dry_run update o f,
    hoare (at_ o f) (get_new_toots dry_run update)
          (fun _ s' => fetch_post o f dry_run update s').
Proof.
  intros dry_run update o f. unfold get_new_toots.
  apply hoare_bind_quiet;
    [apply quiet_my_mastodon_id
    |intros; apply fetch_post_at; assumption
    |intros my_id].
  apply hoare_get_self. cbv zeta.
  apply hoare_try_except; [|intros s Hs; exact Hs].
  apply hoare_bind_quiet;
    [quiet_tac|intros; apply fetch_post_at; assumption|intros r].
  destruct r as [|newest r].
  - intros s Hs; apply fetch_post_at; exact Hs.
  - intros s [Ho Hf].
    unfold __update_last_id, bind, read_file, write_file, ret.
    destruct (negb dry_run || update) eqn:E; cbn [fst snd self data_file].
    + split; [exact Ho|right]. split; [exact E|].
      rewrite Hf. eexists; reflexivity.
    + split; auto.
Qed.

(** [get_new_toots] never touches [self]; it writes the data file only
    outside pure dry runs, and then only the marker [last_toot]. *)
Lemma fetch_effect :
  forall dry_run update s,
    fetch_post (self s) (data_file s) dry_run update
               (snd (get_new_toots dry_run update s)).
Proof.
  intros dry_run update s.
  apply (fetch_hoare dry_run update (self s) (data_file s) s).
  split; reflexivity.
Qed.

Lemma quiet_fetch_dry : quiet (get_new_toots true false).
Proof.
  intros s. destruct (fetch_effect true false s) as [Ho [Hf|[Hd _]]].
  - split; assumption.
  - discriminate.
Qed.

Lemma quiet_toots2tweets_dry : forall toots, quiet (toots2tweets toots true).
Proof.
  intros toots; unfold toots2tweets.
  apply quiet_for_each; intros t; apply quiet_engine_dry.
Qed.
#[local] Hint Resolve quiet_fetch_dry quiet_toots2tweets_dry : quiet.

(** *** Start-up *)

Lemma init_facts :
  forall max_twoots0 setup0 file w s0,
    __init__ max_twoots0 setup0 file w = Ok s0 ->
    setup (self s0) = false
    /\ twoots (self s0) = []
    /\ data_file s0 = Some (data (self s0))
    /\ persisted (data_file s0) = persisted file
    /\ data_mastodon_account (data (self s0)) <> None.
Proof.
  intros max_twoots0 setup0 file w s0 H. unfold __init__ in H.
  assert (Hp : forall a b,
             persisted
               (Some (mk_Data
                        (data_twoots match file with
                                     | Some d => d
                                     | None => empty_data
                                     end) a b
                        (data_last_toot match file with
                                        | Some d => d
                                        | None => empty_data
                                        end)
                        (data_last_tweet match file with
                                         | Some d => d
                                         | None => empty_data
                                         end)))
             = persisted file)
    by (intros; destruct file; reflexivity).
  assert (Hq : persisted (Some match file with
                               | Some d => d
                               | None => empty_data
                               end) = persisted file)
    by (destruct file; reflexivity).
  destruct (data_mastodon_account _) eqn:E1 in H.
  - destruct (data_twitter_account _) eqn:E2 in H.
    + injection H as <-. cbn. rewrite E1. repeat split; auto; discriminate.
    + destruct (twitter_account_verify_credentials w) as [[b|e] w'];
        [|discriminate]. injection H as <-. cbn. rewrite E1.
      repeat split; auto; discriminate.
  - destruct (mastodon_account_verify_credentials w) as [[c|e] w1];
      [|discriminate]. cbn [data_twitter_account] in H.
    destruct (data_twitter_account _) eqn:E2 in H.
    + injection H as <-. cbn. repeat split; auto; discriminate.
    + destruct (twitter_account_verify_credentials w1) as [[b|e] w'];
        [|discriminate]. injection H as <-. cbn.
      repeat split; auto; discriminate.
Qed.


(** *** A pure dry run *)

Lemma at_self : forall o f (s : State), at_ o f s -> at_ o f s.
Proof. auto. Qed.

Lemma run_dry_hoare :
  forall o f,
    setup o = false -> twoots o = [] ->
    hoare (at_ o f) (run true false) (fun _ s' => at_ o f s').
Proof.
  intros o f Hsetup Htw. unfold run.
  apply hoare_get_self. rewrite Hsetup. cbn [negb]. cbv zeta.
  apply hoare_bind_quiet; [auto with quiet|auto|intros toots].
  apply hoare_bind_quiet; [auto with quiet|auto|intros _].
  apply hoare_get_self. rewrite Htw. cbn [length Nat.ltb Nat.leb].
  intros s Hs; exact Hs.
Qed.

(** *** The uniqueness invariant *)

Lemma mem_false_not_In :
  forall x l, mem x l = false -> ~ In x l.
Proof.
  intros x l H Hin. unfold mem in H.
  assert (existsb (Z.eqb x) l = true) as E
      by (apply existsb_exists; exists x; split; [exact Hin|apply Z.eqb_refl]).
  congruence.
Qed.

Lemma NoDup_slice_to :
  forall (l : list twoot) n,
    NoDup (map toot_id l) -> NoDup (map toot_id (slice_to l n)).
Proof.
  intros l n H. unfold slice_to.
  assert (forall k, NoDup (map toot_id (firstn k l))) as Hk.
  { intros k. rewrite <- (firstn_skipn k l), map_app in H.
    eapply NoDup_app_remove_r; exact H. }
  destruct (0 <=? n); apply Hk.
Qed.

Lemma coherent_fetch :
  forall dry_run update,
    hoare coherent (get_new_toots dry_run update) (fun _ s' => coherent s').
Proof.
  intros dry_run update s (Hnd & (d & Hd & Htw) & Hacc).
  cbn [fst snd].
  destruct (fetch_effect dry_run update s) as [Ho [Hf|[_ [v Hf]]]];
    unfold coherent; rewrite Ho, Hf; repeat split; auto.
  - exists d; auto.
  - rewrite Hd. exists (set_marker d Last_toot v); split; auto.
Qed.

Lemma coherent_engine :
  forall t dry_run,
    hoare coherent (create_tweet_from_toot t dry_run)
          (fun _ s' => coherent s').
Proof.
  intros t dry_run s (Hnd & (d & Hd & Htw) & Hacc).
  destruct (engine_effect t dry_run s)
    as [Hf [Ho|(_ & Hmem & (tw & Ho) & _)]];
    unfold coherent; rewrite Ho, Hf.
  - repeat split; auto. exists d; auto.
  - cbn [data]. repeat split; auto.
    + unfold synced_ids in *. cbn [twoots data app map toot_id].
      constructor; [apply mem_false_not_In; exact Hmem|exact Hnd].
    + exists d; auto.
Qed.

Lemma hoare_for_each :
  forall A (I : State -> Prop) (body : A -> M unit) l,
    (forall x, hoare I (body x) (fun _ s' => I s')) ->
    hoare I (for_each l body) (fun _ s' => I s').
Proof.
  intros A I body l Hb; induction l as [|x l IH]; cbn [for_each].
  - intros s Hs; exact Hs.
  - eapply hoare_bind; [apply Hb|auto|intros _; exact IH].
Qed.

Lemma coherent_file :
  forall s, coherent s -> NoDup (map toot_id (file_twoots (data_file s))).
Proof.
  intros s (Hnd & (d & Hd & Htw) & _). rewrite Hd; cbn [file_twoots].
  rewrite Htw. unfold synced_ids in Hnd. rewrite map_app in Hnd.
  eapply NoDup_app_remove_l; exact Hnd.
Qed.

Lemma coherent_run :
  forall dry_run update,
    hoare coherent (run dry_run update)
          (fun _ s' => NoDup (map toot_id (file_twoots (data_file s')))).
Proof.
  intros dry_run update. unfold run.
  apply hoare_bind with (Mid := coherent);
    [intros s Hs; exact Hs|intros; apply coherent_file; assumption|intros o].
  cbv zeta.
  apply hoare_bind with (Mid := coherent);
    [apply coherent_fetch|intros; apply coherent_file; assumption
    |intros toots].
  apply hoare_bind with (Mid := coherent);
    [|intros; apply coherent_file; assumption|intros _].
  - destruct (negb (setup o)); [|intros s Hs; exact Hs].
    unfold toots2tweets. apply hoare_for_each.
    intros t; apply coherent_engine.
  - intros s Hs. unfold bind, get_self.
    destruct (0 <? length (twoots (self s)))%nat;
      [|apply coherent_file; exact Hs].
    destruct Hs as (Hnd & (d & Hd & Htw) & _).
    unfold __save_data, bind, read_file, get_self, write_file.
    rewrite Hd. cbn [fst snd data_file file_twoots set_twoots data_twoots].
    apply NoDup_slice_to. rewrite Htw. exact Hnd.
Qed.

Lemma init_coherent :
  forall max_twoots0 setup0 file w s0,
    NoDup (map toot_id (file_twoots file)) ->
    __init__ max_twoots0 setup0 file w = Ok s0 ->
    coherent s0.
Proof.
  intros max_twoots0 setup0 file w s0 Hnd H.
  destruct (init_facts _ _ _ _ _ H) as (_ & Htw & Hf & Hp & Hacc).
  repeat split; auto.
  - unfold synced_ids. rewrite Htw. cbn [app].
    rewrite Hf in Hp. destruct file as [d|]; cbn in Hp |- *.
    + injection Hp as _ _ ->. exact Hnd.
    + injection Hp as _ _ ->. constructor.
  - exists (data (self s0)); auto.
Qed.

Lemma reachable_file_unique :
  forall f, reachable_file f -> NoDup (map toot_id (file_twoots f)).
Proof.
  intros f H; induction H as [f Hf|f m st dr up w r s' Hr IH Hmain].
  - exact Hf.
  - unfold main in Hmain.
    destruct (__init__ m st f w) as [s0|e] eqn:Hinit; [|discriminate].
    injection Hmain as Hrun.
    pose proof (coherent_run dr up s0 (init_coherent _ _ _ _ _ IH Hinit))
      as Hpost.
    rewrite Hrun in Hpost. exact Hpost.
Qed.

Lemma in_run_coherent : forall s, in_run s -> coherent s.
Proof.
  intros s H; induction H as [f m st w s0 dr up Hr Hinit|s t dr Hs IH].
  - apply (coherent_fetch dr up s0).
    eapply init_coherent; [apply reachable_file_unique; exact Hr|exact Hinit].
  - apply (coherent_engine t dr s IH).
Qed.

(** A candidate that is already in the searched concatenation is skipped
    at once. *)
Lemma engine_skips_synced :
  forall s t dry_run,
    data_mastodon_account (data (self s)) <> None ->
    mem (t_id t) (synced_ids (self s)) = true ->
    create_tweet_from_toot t dry_run s = (Ok tt, s).
Proof.
  intros s t dry_run Hacc Hmem.
  unfold create_tweet_from_toot, my_mastodon_id, bind, get_self.
  destruct (data_mastodon_account (data (self s))) as [a|];
    [|congruence].
  cbn [ret]. rewrite Hmem. reflexivity.
Qed.


(** *** The claims about the engine, for every collaborator *)

(** Whenever, outside a dry run, the engine records a mapping for a toot
    that is not a boost, the call does not return: it raises
    [AttributeError], with the data file untouched. *)
Lemma mirrored_plain_toot_raises :
  forall s t r s',
    t_reblog t = None ->
    create_tweet_from_toot t false s = (r, s') ->
    twoots (self s') <> twoots (self s) ->
    r = Raise AttributeError /\ data_file s' = data_file s.
Proof.
  intros s t r s' Hplain Hrun Hchanged.
  pose proof (engine_effect t false s) as Heff. rewrite Hrun in Heff.
  cbn [fst snd] in Heff.
  destruct Heff as [Hf [Ho|(_ & _ & _ & Hr)]].
  - rewrite Ho in Hchanged. contradiction.
  - split; auto.
Qed.

(** C5.  A run with dry-run enabled and the update flag disabled, started
    on the object that [__init__] built, leaves the data file exactly as
    [__init__] wrote it; the persisted markers and the persisted mapping
    history are those found before the invocation, and no mapping is held
    in memory at the end.  This holds whatever the platforms answer and
    whether [run] returns or raises. *)
Theorem dry_run_leaves_persisted_state :
  forall max_twoots0 setup0 file w s0,
    __init__ max_twoots0 setup0 file w = Ok s0 ->
    data_file (snd (run true false s0)) = data_file s0
    /\ persisted (data_file (snd (run true false s0))) = persisted file
    /\ twoots (self (snd (run true false s0))) = [].
Proof.
  intros max_twoots0 setup0 file w s0 Hinit.
  destruct (init_facts _ _ _ _ _ Hinit) as (Hsetup & Htw & _ & Hp & _).
  destruct (run_dry_hoare (self s0) (data_file s0) Hsetup Htw s0)
    as [Ho Hf]; [split; reflexivity|].
  rewrite Ho, Hf. auto.
Qed.

(** C6.  Starting from a data file whose history names no toot twice, the
    history of every data file left by any sequence of invocations names
    no toot twice; and in every state in which the engine is entered, the
    searched concatenation [self.twoots + self.data["twoots"]] names no
    toot twice and a candidate whose id is in it is skipped: the call
    returns with the state unchanged, so no destination action is
    performed and no mapping recorded. *)
Theorem mapping_history_unique :
  (forall f, reachable_file f -> NoDup (map toot_id (file_twoots f)))
  /\ (forall s,
         in_run s ->
         NoDup (synced_ids (self s))
         /\ forall t dry_run,
             mem (t_id t) (synced_ids (self s)) = true ->
             create_tweet_from_toot t dry_run s = (Ok tt, s)).
Proof.
  split; [exact reachable_file_unique|].
  intros s Hs. destruct (in_run_coherent s Hs) as (Hnd & _ & Hacc).
  split; [exact Hnd|].
  intros t dry_run Hmem. apply engine_skips_synced; assumption.
Qed.

(** C8.  When the data file exists and [max_twoots] is not negative,
    [__save_data] returns, changes nothing but the data file, and leaves in
    it the history made of the new mappings followed by the history just
    read from the file, cut to its first [max_twoots] entries; every other
    key of the file is kept. *)
Theorem save_data_prepends_and_truncates :
  forall s d,
    data_file s = Some d ->
    0 <= max_twoots (self s) ->
    __save_data s
    = (Ok tt,
       mk_State (self s)
                (Some (set_twoots d
                         (firstn (Z.to_nat (max_twoots (self s)))
                                 (twoots (self s) ++ data_twoots d))))
                (world s) (actions s)).
Proof.
  intros s d Hd Hmax.
  unfold __save_data, bind, read_file, get_self, write_file.
  rewrite Hd. unfold slice_to.
  apply Z.leb_le in Hmax. cbn [data_twoots set_twoots]. rewrite Hmax.
  reflexivity.
Qed.

(** C9 (the code fails the claim).  For an attachment of type image whose
    download answers with a status other than 200, or with a content type
    that does not contain "image", [__download_image] logs a warning and
    returns [None], and [__post_media_to_twitter] then raises [TypeError]
    instead of returning [None]. *)
Theorem failed_image_download_raises :
  forall s m resp w',
    media_type m = lit "image" ->
    requests_get (media_url m) (world s) = (Ok resp, w') ->
    (status_code resp <> 200
     \/ exists c, content_type resp = Some c
                  /\ contains c (lit "image") = false) ->
    fst (__download_image (media_url m) s) = Ok None
    /\ fst (__post_media_to_twitter m s) = Raise TypeError
    /\ actions (snd (__post_media_to_twitter m s))
       = actions s ++ [Warn (media_url m)].
Proof.
  intros s m resp w' Hm Hget Hbad.
  unfold __post_media_to_twitter. rewrite Hm.
  change (str_eqb (lit "image") (lit "image")) with true. cbv iota.
  unfold __download_image, download, bind, call. rewrite Hget.
  destruct (status_code resp =? 200) eqn:E; cbn [negb].
  - destruct Hbad as [Hs|(c & Hc & Hno)];
      [apply Z.eqb_eq in E; contradiction|].
    rewrite Hc, Hno. cbn. auto.
  - cbn. auto.
Qed.

End Logic.

(* ================================================================== *)
(** * Concrete invocations *)
(* ================================================================== *)

(** C1 (the code fails the claim).  A run that is not a dry run, with one
    new plain toot that carries a link: the toot is posted and its mapping
    recorded in memory, and the very next statement, the call of the
    undefined method [create_toot_from_tweet], raises [AttributeError].
    [run] ends with that exception; [__save_data] is not reached, and the
    data file keeps an empty history. *)
Theorem plain_toot_run_aborts_before_save :
  @main toy_plain 5 false false false (Some (seeded 1 [])) 100
  = Ok (Raise AttributeError,
        @mk_State toy_plain
          (mk_Self false 5 [mk_twoot 7 100] (seeded 1 []))
          (Some (seeded 7 []))
          101
          [StatusUpdate
             (lit "hello  https://a.b https://ribeiro.social/@justin/7")
             None []]).
Proof. vm_compute. reflexivity. Qed.

(** C2 (the code fails the claim).  An invocation in setup mode
    ([setup = True] passed to the constructor) on a data file that has a
    marker: [self.setup] is [False] all the same, the fetched boost of the
    synced toot 5 goes through the decision engine, the paired tweet 50 is
    retweeted, and the new mapping is recorded and saved. *)
Theorem setup_mode_still_mirrors :
  @main toy_boost 5 true false false (Some (seeded 1 [mk_twoot 5 50])) 100
  = Ok (Ok tt,
        @mk_State toy_boost
          (mk_Self false 5 [mk_twoot 8 100] (seeded 1 [mk_twoot 5 50]))
          (Some (seeded 8 [mk_twoot 8 100; mk_twoot 5 50]))
          101
          [Retweet (Some 50)]).
Proof. vm_compute. reflexivity. Qed.

(** C7 (the code fails the claim).  A run that is not a dry run on a
    newest-first batch holding toot 7 and the self reply 8 to it: the
    parent 7 is processed first, posted and mapped, and the
    [AttributeError] raised at the end of that call ends the loop.  The
    reply 8 is never evaluated: the only destination action is the post of
    the parent, and no reply is created. *)
Theorem self_reply_child_never_evaluated :
  @main toy_thread 5 false false false (Some (seeded 1 [])) 100
  = Ok (Raise AttributeError,
        @mk_State toy_thread
          (mk_Self false 5 [mk_twoot 7 100] (seeded 1 []))
          (Some (seeded 8 []))
          101
          [StatusUpdate
             (lit "first  https://a.b https://ribeiro.social/@justin/7")
             None []]).
Proof. vm_compute. reflexivity. Qed.

(** A dry run on a toot without any link ends with [AttributeError]. *)
Lemma dry_run_without_url_raises :
  @main toy_no_url 5 false true false (Some (seeded 1 [])) 100
  = Ok (Raise AttributeError,
        @mk_State toy_no_url
          (mk_Self false 5 [] (seeded 1 []))
          (Some (seeded 1 []))
          100 []).
Proof. vm_compute. reflexivity. Qed.

(** An image whose download answers 404 ends the run with [TypeError]. *)
Lemma broken_image_ends_run :
  @main toy_broken_image 5 false false false (Some (seeded 1 [])) 100
  = Ok (Raise TypeError,
        @mk_State toy_broken_image
          (mk_Self false 5 [] (seeded 1 []))
          (Some (seeded 7 []))
          100
          [Warn (lit "https://ribeiro.social/media/1.png")]).
Proof. vm_compute. reflexivity. Qed.

(** C3, the claim as stated fails.  On a text with two URL tokens the code
    deletes both from the body, where the claim removes only the first; on
    a text of 236 characters whose URL-free body has 226, the code appends
    an ellipsis although that body is within the budget of 230. *)
Lemma assemble_text_disagrees_with_spec :
  (assemble_text (lit "a http://x.y b http://z.w") (lit "P")
   = Ok (lit "a  b  http://x.y P")
   /\ spec_assemble_text (lit "a http://x.y b http://z.w") (lit "P")
      = Some (lit "a  b http://z.w http://x.y P")
   /\ lit "a  b  http://x.y P" <> lit "a  b http://z.w http://x.y P")
  /\ (assemble_text (repeat 97%N 225 ++ lit " http://x.y") (lit "P")
      = Ok (repeat 97%N 225 ++ lit " ... http://x.y P")
      /\ spec_assemble_text (repeat 97%N 225 ++ lit " http://x.y") (lit "P")
         = Some (repeat 97%N 225 ++ lit "  http://x.y P")
      /\ repeat 97%N 225 ++ lit " ... http://x.y P"
         <> repeat 97%N 225 ++ lit "  http://x.y P").
Proof.
  split; (split; [vm_compute; reflexivity|]);
    (split; [vm_compute; reflexivity|]).
  - vm_compute. discriminate.
  - intros H. apply app_inv_head in H. vm_compute in H. discriminate.
Qed.

Lemma assemble_text_with_url_witness :
  re_search_url (repeat 97%N 300 ++ lit " http://x.y")
  = Some (lit "http://x.y")
  /\ exists cut,
      assemble_text (repeat 97%N 300 ++ lit " http://x.y") (lit "P")
      = Ok (cut ++ lit " " ++ lit "http://x.y" ++ lit " " ++ lit "P")
      /\ ((230 < length (re_sub_url (repeat 97%N 300 ++ lit " http://x.y")))%nat ->
          cut = firstn 230 (re_sub_url (repeat 97%N 300 ++ lit " http://x.y"))
                ++ lit "...")
      /\ ((length (repeat 97%N 300 ++ lit " http://x.y") <= 230)%nat ->
          cut = re_sub_url (repeat 97%N 300 ++ lit " http://x.y"))
      /\ (length cut <= 233)%nat.
Proof.
  split; [vm_compute; reflexivity|].
  apply (assemble_text_with_url
           (repeat 97%N 300 ++ lit " http://x.y") (lit "P")
           (lit "http://x.y")).
  vm_compute; reflexivity.
Defined.

(** The example of the specification: 300 plain characters and one URL. *)
Lemma truncation_example :
  assemble_text (repeat 97%N 300 ++ lit " http://x.y") (lit "P")
  = Ok (repeat 97%N 230 ++ lit "... http://x.y P").
Proof. vm_compute. reflexivity. Qed.

Lemma assemble_text_without_url_witness :
  re_search_url (lit "hello world") = None
  /\ assemble_text (lit "hello world") (lit "P") = Raise AttributeError.
Proof.
  split; [vm_compute; reflexivity|].
  apply (assemble_text_without_url (lit "hello world") (lit "P")).
  vm_compute; reflexivity.
Defined.

Lemma dry_run_leaves_persisted_state_witness :
  @__init__ toy_plain 5 false (Some (seeded 1 [mk_twoot 5 50])) 100
  = Ok (@mk_State toy_plain
          (mk_Self false 5 [] (seeded 1 [mk_twoot 5 50]))
          (Some (seeded 1 [mk_twoot 5 50])) 100 [])
  /\ persisted
       (data_file
          (snd (@run toy_plain true false
                  (@mk_State toy_plain
                     (mk_Self false 5 [] (seeded 1 [mk_twoot 5 50]))
                     (Some (seeded 1 [mk_twoot 5 50])) 100 []))))
     = persisted (Some (seeded 1 [mk_twoot 5 50])).
Proof.
  split; [reflexivity|].
  apply (@dry_run_leaves_persisted_state toy_plain 5 false
           (Some (seeded 1 [mk_twoot 5 50])) 100 _ eq_refl).
Defined.

Lemma mapping_history_unique_witness :
  NoDup (map toot_id
           (file_twoots
              (data_file (snd (@run toy_boost false false boost_start)))))
  /\ @create_tweet_from_toot toy_boost
       (text_toot 5 (lit "again https://a.b")) false
       (snd (@get_new_toots toy_boost false false boost_start))
     = (Ok tt, snd (@get_new_toots toy_boost false false boost_start)).
Proof.
  assert (Hfile : NoDup (map toot_id
                           (file_twoots (Some (seeded 1 [mk_twoot 5 50])))))
    by (repeat constructor; cbn; tauto).
  split.
  - apply (proj1 (@mapping_history_unique toy_boost)).
    apply (@after_main toy_boost (Some (seeded 1 [mk_twoot 5 50]))
             5 false false false 100
             (fst (@run toy_boost false false boost_start))
             (snd (@run toy_boost false false boost_start))
             (initial_file _ Hfile)).
    reflexivity.
  - apply (proj2 (@mapping_history_unique toy_boost)).
    + apply (@run_fetched toy_boost (Some (seeded 1 [mk_twoot 5 50]))
               5 false 100 boost_start false false
               (initial_file _ Hfile)).
      reflexivity.
    + reflexivity.
Defined.

Lemma save_data_prepends_and_truncates_witness :
  fst (@__save_data toy_boost
         (@mk_State toy_boost
            (mk_Self false 2 [mk_twoot 8 100] (seeded 1 [mk_twoot 5 50]))
            (Some (seeded 8 [mk_twoot 5 50; mk_twoot 4 40])) 101 []))
  = Ok tt
  /\ data_file
       (snd (@__save_data toy_boost
               (@mk_State toy_boost
                  (mk_Self false 2 [mk_twoot 8 100]
                           (seeded 1 [mk_twoot 5 50]))
                  (Some (seeded 8 [mk_twoot 5 50; mk_twoot 4 40])) 101 [])))
     = Some (seeded 8 [mk_twoot 8 100; mk_twoot 5 50]).
Proof.
  rewrite (@save_data_prepends_and_truncates toy_boost
             (@mk_State toy_boost
                (mk_Self false 2 [mk_twoot 8 100]
                         (seeded 1 [mk_twoot 5 50]))
                (Some (seeded 8 [mk_twoot 5 50; mk_twoot 4 40])) 101 [])
             (seeded 8 [mk_twoot 5 50; mk_twoot 4 40])
             eq_refl).
  - split; reflexivity.
  - cbn. lia.
Defined.

(** The retention cap over two invocations with [max_twoots = 5]: a
    history of two mappings, three boosts mirrored by the first invocation
    and three by the second make eight mappings; the five newest remain,
    newest first. *)
Lemma retention_cap_example :
  file_twoots
    (data_file
       (snd (@run toy_boosts_1 false false
               (@mk_State toy_boosts_1
                  (mk_Self false 5 []
                           (seeded 2 [mk_twoot 2 20; mk_twoot 1 10]))
                  (Some (seeded 2 [mk_twoot 2 20; mk_twoot 1 10]))
                  100 []))))
  = [mk_twoot 13 102; mk_twoot 12 101; mk_twoot 11 100;
     mk_twoot 2 20; mk_twoot 1 10]
  /\ file_twoots
       (data_file
          (snd (@run toy_boosts_2 false false
                  (@mk_State toy_boosts_2
                     (mk_Self false 5 []
                        (seeded 13 [mk_twoot 13 102; mk_twoot 12 101;
                                    mk_twoot 11 100; mk_twoot 2 20;
                                    mk_twoot 1 10]))
                     (Some (seeded 13 [mk_twoot 13 102; mk_twoot 12 101;
                                       mk_twoot 11 100; mk_twoot 2 20;
                                       mk_twoot 1 10]))
                     103 []))))
     = [mk_twoot 16 105; mk_twoot 15 104; mk_twoot 14 103;
        mk_twoot 13 102; mk_twoot 12 101].
Proof. split; vm_compute; reflexivity. Qed.

Lemma failed_image_download_raises_witness :
  fst (@__post_media_to_twitter toy_broken_image broken_image
         (@mk_State toy_broken_image
            (mk_Self false 5 [] (seeded 1 []))
            (Some (seeded 7 [])) 100 []))
  = Raise TypeError.
Proof.
  apply (@failed_image_download_raises toy_broken_image
           (@mk_State toy_broken_image
              (mk_Self false 5 [] (seeded 1 []))
              (Some (seeded 7 [])) 100 [])
           broken_image http_not_found 100 eq_refl eq_refl).
  left. cbn. discriminate.
Defined.

(** C10, the claim as stated fails.  An input that already contains the
    placeholder of the space, or of the line break, has the same escaped
    text as the input with the character itself, so whatever the
    conversion does afterwards it cannot give both inputs back; restoring
    the placeholders gives back the character, not the input. *)
Lemma html2text_escape_collides :
  __html2text_escape (lit "a b") = __html2text_escape (lit "a&nbsp;b")
  /\ lit "a b" <> lit "a&nbsp;b"
  /\ __html2text_escape [97%N; 10%N; 98%N]
     = __html2text_escape (lit "a<br>b")
  /\ restore (__html2text_escape (lit "a&nbsp;b")) = lit "a b"
  /\ ~ (exists handle : str -> str,
           handle (__html2text_escape (lit "a b")) = lit "a b"
           /\ handle (__html2text_escape (lit "a&nbsp;b"))
              = lit "a&nbsp;b").
Proof.
  split; [vm_compute; reflexivity|].
  split; [vm_compute; discriminate|].
  split; [vm_compute; reflexivity|].
  split; [vm_compute; reflexivity|].
  intros (handle & H1 & H2).
  change (__html2text_escape (lit "a&nbsp;b"))
    with (__html2text_escape (lit "a b")) in H2.
  rewrite H1 in H2. vm_compute in H2. discriminate.
Qed.

Lemma html2text_escape_exact_without_tokens_witness :
  token_free (lit "Hi there. C++ & co - a\b") = true
  /\ restore (__html2text_escape (lit "Hi there. C++ & co - a\b"))
     = lit "Hi there. C++ & co - a\b".
Proof.
  split; [vm_compute; reflexivity|].
  exact (proj1 (proj2 (html2text_escape_exact_without_tokens
                         (lit "Hi there. C++ & co - a\b") eq_refl))).
Defined.

(* ================================================================== *)
(** * Further properties of the code *)
(* ================================================================== *)

Section Further.

Context {P : Platform}.

(** *** The mapping history as a lookup table *)

Lemma find_pair_mem :
  forall i l,
    match find_pair i l with
    | Some _ => mem i (map toot_id l) = true
    | None => mem i (map toot_id l) = false
    end.
Proof.
  intros i l; induction l as [|t l IH]; [reflexivity|].
  cbn [find_pair map mem existsb]. rewrite (Z.eqb_sym i).
  destruct (toot_id t =? i); [reflexivity|exact IH].
Qed.

(** X1.  Insert and lookup: after [__store_twoot(i, tw)], the tweet paired
    with toot [i] is [tw], also when an older mapping of [i] exists, and
    the tweet paired with any other toot is what it was. *)
Theorem store_then_find_paired :
  forall s i tw j,
    fst (__find_paired_tweet (Some j) (snd (__store_twoot i tw s)))
    = if i =? j then Ok (Some tw)
      else fst (__find_paired_tweet (Some j) s).
Proof.
  intros s i tw j.
  unfold __find_paired_tweet, __store_twoot, bind, get_self, put_self, ret.
  cbn. destruct (i =? j); reflexivity.
Qed.

(** X2.  [__find_paired_tweet] returns a tweet exactly for the toots that
    the engine counts as synced, and [None] for every other toot; it never
    raises. *)
Theorem find_paired_tweet_agrees_with_synced :
  forall s i,
    match fst (__find_paired_tweet (Some i) s) with
    | Ok (Some _) => mem i (synced_ids (self s)) = true
    | Ok None => mem i (synced_ids (self s)) = false
    | Raise _ => False
    end.
Proof.
  intros s i. unfold __find_paired_tweet, bind, get_self, ret. cbn.
  apply find_pair_mem.
Qed.

(** *** The marker store *)

(** X3.  [__update_last_id] always returns; it sets the given marker,
    keeps the other marker, the mapping history and both accounts of the
    data file (or of the empty default when there is no file), and leaves
    [self] alone. *)
Theorem update_last_id_writes_one_marker :
  forall key value s,
    fst (__update_last_id key value s) = Ok tt
    /\ self (snd (__update_last_id key value s)) = self s
    /\ exists d',
        data_file (snd (__update_last_id key value s)) = Some d'
        /\ (forall k, get_marker d' k
                      = match key, k with
                        | Last_toot, Last_toot
                        | Last_tweet, Last_tweet => Some value
                        | _, _ => get_marker (file_data (data_file s)) k
                        end)
        /\ data_twoots d' = data_twoots (file_data (data_file s))
        /\ data_mastodon_account d'
           = data_mastodon_account (file_data (data_file s))
        /\ data_twitter_account d'
           = data_twitter_account (file_data (data_file s)).
Proof.
  intros key value s.
  unfold __update_last_id, bind, read_file, write_file. cbn.
  repeat split; auto.
  eexists; split; [reflexivity|].
  destruct (data_file s) as [d|], key; cbn;
    (repeat split; auto); intros []; reflexivity.
Qed.

(** X4.  The last write of a marker wins, and writes of the two different
    markers commute. *)
Theorem update_last_id_compose :
  forall v1 v2 k s,
    data_file (snd (__update_last_id k v2 (snd (__update_last_id k v1 s))))
    = data_file (snd (__update_last_id k v2 s))
    /\ data_file (snd (__update_last_id Last_tweet v2
                         (snd (__update_last_id Last_toot v1 s))))
       = data_file (snd (__update_last_id Last_toot v1
                           (snd (__update_last_id Last_tweet v2 s)))).
Proof.
  intros v1 v2 k s.
  unfold __update_last_id, bind, read_file, write_file. cbn.
  destruct (data_file s), k; split; reflexivity.
Qed.

(** *** The fetcher *)

Ltac run_fetch Hacc :=
  unfold get_new_toots, my_mastodon_id, __update_last_id, try_except, bind,
    get_self, raise, call, read_file, write_file, ret;
  rewrite Hacc; cbn [account_id].


(** X6.  A fetch that raises is swallowed: [get_new_toots] returns the
    empty list, and neither [self] nor the data file changes. *)
Theorem failed_fetch_returns_empty :
  forall dry_run update s a e w',
    data_mastodon_account (data (self s)) = Some a ->
    mastodon_account_statuses
      (account_id a)
      (if truthy (data_last_toot (data (self s)))
       then data_last_toot (data (self s)) else None)
      (world s)
    = (Raise e, w') ->
    get_new_toots dry_run update s
    = (Ok [], mk_State (self s) (data_file s) w' (actions s)).
Proof.
  intros dry_run update s a e w' Hacc Hfetch.
  run_fetch Hacc.
  destruct (truthy (data_last_toot (data (self s))));
    rewrite Hfetch; reflexivity.
Qed.

(** X7.  Fetch with a marker: the timeline is asked for the toots since
    the marker and its answer is returned as it is; the marker is moved to
    the id of the first (newest) toot of a non-empty answer unless the run
    is a pure dry run, and an empty answer writes nothing. *)
Theorem fetch_since_marker :
  forall dry_run update s a r w',
    data_mastodon_account (data (self s)) = Some a ->
    truthy (data_last_toot (data (self s))) = true ->
    mastodon_account_statuses (account_id a)
      (data_last_toot (data (self s))) (world s)
    = (Ok r, w') ->
    get_new_toots dry_run update s
    = (Ok r,
       mk_State (self s)
                match r with
                | newest :: _ =>
                    if negb dry_run || update
                    then Some (set_marker (file_data (data_file s))
                                          Last_toot (t_id newest))
                    else data_file s
                | [] => data_file s
                end
                w' (actions s)).
Proof.
  intros dry_run update s a r w' Hacc Hlast Hfetch.
  run_fetch Hacc. rewrite Hlast, Hfetch.
  destruct r as [|newest r]; [reflexivity|].
  destruct (negb dry_run || update); reflexivity.
Qed.

(** X8.  Once the own account is known, [get_new_toots] never raises,
    whatever the platform does; without it the first statement raises
    [KeyError] before anything is fetched. *)
Theorem get_new_toots_raises_only_without_account :
  forall dry_run update s,
    match data_mastodon_account (data (self s)) with
    | Some _ => exists r, fst (get_new_toots dry_run update s) = Ok r
    | None => get_new_toots dry_run update s = (Raise KeyError, s)
    end.
Proof.
  intros dry_run update s.
  destruct (data_mastodon_account (data (self s))) as [a|] eqn:Hacc.
  - run_fetch Hacc.
    destruct (truthy (data_last_toot (data (self s))));
      match goal with
      | |- context [mastodon_account_statuses ?a ?b ?c] =>
          destruct (mastodon_account_statuses a b c) as [[[|n r]|e] w']
      end;
      cbn; try destruct (negb dry_run || update); cbn; eexists; reflexivity.
  - run_fetch Hacc. reflexivity.
Qed.

(** *** What a dry run never does *)

Lemma no_mirror_ret : forall A (a : A), no_mirror (ret a).
Proof. intros A a s; split; reflexivity. Qed.

Lemma no_mirror_raise : forall A e, no_mirror (@raise P A e).
Proof. intros A e s; split; reflexivity. Qed.

Lemma no_mirror_lift : forall A (r : result A), no_mirror (lift r).
Proof. intros A r s; split; reflexivity. Qed.

Lemma no_mirror_get_self : no_mirror get_self.
Proof. intros s; split; reflexivity. Qed.

Lemma no_mirror_read_file : no_mirror read_file.
Proof. intros s; split; reflexivity. Qed.

Lemma no_mirror_write_file : forall d, no_mirror (write_file d).
Proof. intros d s; split; reflexivity. Qed.

Lemma no_mirror_call :
  forall A (op : World -> result A * World), no_mirror (call op).
Proof.
  intros A op s; unfold call. destruct (op (world s)); split; reflexivity.
Qed.

Lemma no_mirror_bind :
  forall A B (m : M A) (k : A -> M B),
    no_mirror m -> (forall a, no_mirror (k a)) -> no_mirror (bind m k).
Proof.
  intros A B m k Hm Hk s. unfold bind.
  destruct (Hm s) as [H1 H2].
  destruct (m s) as [[a|e] s1]; cbn [fst snd] in *.
  - destruct (Hk a s1) as [H3 H4]. split; congruence.
  - split; assumption.
Qed.

Lemma no_mirror_try_except :
  forall A (m h : M A),
    no_mirror m -> no_mirror h -> no_mirror (try_except m h).
Proof.
  intros A m h Hm Hh s. unfold try_except.
  destruct (Hm s) as [H1 H2].
  destruct (m s) as [[a|e] s1]; cbn [fst snd] in *.
  - split; assumption.
  - destruct (Hh s1) as [H3 H4]. split; congruence.
Qed.

Lemma no_mirror_for_each :
  forall A (body : A -> M unit) l,
    (forall x, no_mirror (body x)) -> no_mirror (for_each l body).
Proof.
  intros A body l Hb; induction l as [|x l IH]; cbn [for_each].
  - apply no_mirror_ret.
  - apply no_mirror_bind; [apply Hb|intros _; apply IH].
Qed.

Create HintDb no_mirror.
#[local] Hint Resolve no_mirror_ret no_mirror_raise no_mirror_lift
  no_mirror_get_self no_mirror_read_file no_mirror_write_file
  no_mirror_call no_mirror_for_each : no_mirror.

Ltac no_mirror_step :=
  match goal with
  | |- no_mirror (bind _ _) => apply no_mirror_bind; [|intros ?]
  | |- no_mirror (try_except _ _) => apply no_mirror_try_except
  | |- no_mirror (if ?b then _ else _) => destruct b
  | |- no_mirror (match ?x with _ => _ end) => destruct x
  | |- forall _, _ => intros ?
  | |- no_mirror _ => solve [auto with no_mirror]
  end.

Ltac no_mirror_tac := repeat no_mirror_step.

Lemma no_mirror_fetch :
  forall dry_run update, no_mirror (get_new_toots dry_run update).
Proof.
  intros dry_run update.
  unfold get_new_toots, my_mastodon_id, __update_last_id. cbv zeta.
  no_mirror_tac.
Qed.

Lemma no_mirror_save : no_mirror __save_data.
Proof. unfold __save_data; cbv zeta; no_mirror_tac. Qed.

Lemma no_mirror_engine_dry :
  forall t, no_mirror (create_tweet_from_toot t true).
Proof.
  intros t.
  unfold create_tweet_from_toot, my_mastodon_id, __find_paired_tweet.
  cbn [negb]. cbv zeta. no_mirror_tac.
Qed.

(** X9.  A dry run, with or without the update flag, performs no action on
    the destination platform (no upload, no post, no retweet) and records
    no mapping, whatever is fetched and whether it returns or raises. *)
Theorem dry_run_mirrors_nothing :
  forall update s,
    setup (self s) = false ->
    actions (snd (run true update s)) = actions s
    /\ self (snd (run true update s)) = self s.
Proof.
  intros update s Hsetup.
  assert (no_mirror
            (bind (get_new_toots true update)
               (fun toots =>
                  bind (toots2tweets toots true)
                    (fun _ =>
                       bind get_self
                         (fun o' =>
                            if (0 <? length (twoots o'))%nat
                            then __save_data else ret tt))))) as H.
  { apply no_mirror_bind; [apply no_mirror_fetch|intros toots].
    apply no_mirror_bind.
    - unfold toots2tweets. apply no_mirror_for_each.
      intros t; apply no_mirror_engine_dry.
    - intros _. apply no_mirror_bind; [apply no_mirror_get_self|intros o'].
      destruct (0 <? length (twoots o'))%nat;
        [apply no_mirror_save|apply no_mirror_ret]. }
  specialize (H s). unfold run, bind, get_self in *.
  rewrite Hsetup. cbn [negb]. exact H.
Qed.

(** *** The cases of the decision engine *)

Ltac run_engine Hacc :=
  unfold create_tweet_from_toot, my_mastodon_id, bind, get_self, raise, ret;
  rewrite Hacc; cbn [account_id].

(** X10.  A reply to somebody else is skipped in every mode: the call
    returns and the state is exactly as before. *)
Theorem foreign_reply_is_skipped :
  forall t dry_run s a x,
    data_mastodon_account (data (self s)) = Some a ->
    t_in_reply_to_account_id t = Some x ->
    x <> 0 ->
    x <> account_id a ->
    create_tweet_from_toot t dry_run s = (Ok tt, s).
Proof.
  intros t dry_run s a x Hacc Hreply Hx0 Hxa.
  run_engine Hacc.
  destruct (mem (t_id t) (synced_ids (self s))); [reflexivity|].
  rewrite Hreply. cbn [truthy opt_eqb].
  apply Z.eqb_neq in Hx0, Hxa. rewrite Hx0, Hxa. reflexivity.
Qed.

(** X11.  A boost of a toot that is not in the mapping history is skipped
    in every mode: the call returns and the state is exactly as before. *)
Theorem boost_of_unsynced_toot_is_skipped :
  forall t dry_run s a boosted,
    data_mastodon_account (data (self s)) = Some a ->
    t_reblog t = Some boosted ->
    mem boosted (synced_ids (self s)) = false ->
    create_tweet_from_toot t dry_run s = (Ok tt, s).
Proof.
  intros t dry_run s a boosted Hacc Hboost Hmem.
  run_engine Hacc.
  destruct (mem (t_id t) (synced_ids (self s))); [reflexivity|].
  destruct (truthy (t_in_reply_to_account_id t)
            && negb (opt_eqb (t_in_reply_to_account_id t) (account_id a)));
    [reflexivity|].
  rewrite Hboost, Hmem. reflexivity.
Qed.

(** X12.  A boost of a synced toot, outside a dry run: the engine issues
    exactly one action, a retweet of the tweet paired with the boosted
    toot (the mapped destination id, not the source id).  When the
    platform accepts it, the pair of this toot and the new retweet is put
    at the head of [self.twoots]; when the platform raises, nothing is
    recorded.  The call returns in both cases and the data file is not
    touched. *)
Theorem boost_of_synced_toot_is_retweeted :
  forall t s a boosted target r w',
    data_mastodon_account (data (self s)) = Some a ->
    mem (t_id t) (synced_ids (self s)) = false ->
    truthy (t_in_reply_to_account_id t)
    && negb (opt_eqb (t_in_reply_to_account_id t) (account_id a)) = false ->
    t_reblog t = Some boosted ->
    find_pair boosted (twoots (self s) ++ data_twoots (data (self s)))
    = Some target ->
    twitter_statuses_retweet (Some target) (world s) = (r, w') ->
    create_tweet_from_toot t false s
    = (Ok tt,
       mk_State
         (mk_Self (setup (self s)) (max_twoots (self s))
                  match r with
                  | Ok tw => mk_twoot (t_id t) (tweet_ident tw)
                             :: twoots (self s)
                  | Raise _ => twoots (self s)
                  end
                  (data (self s)))
         (data_file s) w' (actions s ++ [Retweet (Some target)])).
Proof.
  intros t s a boosted target r w' Hacc Hmem Hown Hboost Hfind Hret.
  pose proof (find_pair_mem boosted
                (twoots (self s) ++ data_twoots (data (self s)))) as Hm.
  rewrite Hfind in Hm.
  run_engine Hacc. rewrite Hmem, Hown, Hboost.
  unfold synced_ids. rewrite Hm.
  unfold __find_paired_tweet, __retweet, __store_twoot, try_except, bind,
    get_self, put_self, emit, call, ret.
  cbn [self world data_file actions fst snd negb]. rewrite Hfind, Hret.
  destruct r as [tw|e]; cbn [self world data_file actions setup max_twoots
                               twoots data].
  - reflexivity.
  - destruct (self s); reflexivity.
Qed.

(** X13.  A plain toot or self reply without media, outside a dry run,
    whose rendered text assembles to [full]: the engine issues exactly one
    action, a status update with that text and no media, in reply to the
    tweet paired with the parent toot when the toot is a self reply whose
    parent is in the mapping history, and to nothing otherwise.  The call
    then ends with the [AttributeError] of the missing method. *)
Theorem post_answers_the_paired_tweet :
  forall t s a text full w1 r w2,
    data_mastodon_account (data (self s)) = Some a ->
    mem (t_id t) (synced_ids (self s)) = false ->
    truthy (t_in_reply_to_account_id t)
    && negb (opt_eqb (t_in_reply_to_account_id t) (account_id a)) = false ->
    t_reblog t = None ->
    t_media_attachments t = [] ->
    pre_process (t_content t) (world s) = (Ok text, w1) ->
    assemble_text text (t_url t) = Ok full ->
    twitter_statuses_update full (reply_target (self s) t) [] w1 = (r, w2) ->
    fst (create_tweet_from_toot t false s) = Raise AttributeError
    /\ actions (snd (create_tweet_from_toot t false s))
       = actions s ++ [StatusUpdate full (reply_target (self s) t) []]
    /\ data_file (snd (create_tweet_from_toot t false s)) = data_file s.
Proof.
  intros t s a text full w1 r w2 Hacc Hmem Hown Hplain Hmedia Hpre Hasm Hupd.
  run_engine Hacc. rewrite Hmem, Hown, Hplain, Hmedia.
  unfold call, lift, __find_paired_tweet, __tweet, __store_twoot,
    try_except, bind, get_self, put_self, emit, call, ret.
  cbn [map_M ret negb flat_map self world data_file actions fst snd].
  unfold ret. cbn [self world data_file actions fst snd].
  rewrite Hpre, Hasm.
  assert (reply_target (self s) t
          = if mem_opt (if truthy (t_in_reply_to_account_id t)
                        then t_in_reply_to_id t else None)
                       (synced_ids (self s))
            then match (if truthy (t_in_reply_to_account_id t)
                        then t_in_reply_to_id t else None) with
                 | Some i =>
                     find_pair i (twoots (self s)
                                  ++ data_twoots (data (self s)))
                 | None => None
                 end
            else None) as Htarget.
  { unfold reply_target.
    destruct (truthy (t_in_reply_to_account_id t)); [|reflexivity].
    destruct (t_in_reply_to_id t) as [p|]; [|reflexivity].
    cbn [mem_opt]. unfold synced_ids.
    pose proof (find_pair_mem p
                  (twoots (self s) ++ data_twoots (data (self s)))) as Hm.
    destruct (find_pair p _); rewrite Hm; reflexivity. }
  rewrite Htarget in Hupd |- *. clear Htarget.
  destruct (mem_opt _ (synced_ids (self s)));
    cbn [self world data_file actions fst snd join];
    change (join (lit ",") []) with (@nil N); rewrite Hupd;
    destruct r as [tw|e]; cbn; auto.
Qed.

(** *** The orchestrator *)

Lemma for_each_app :
  forall A (body : A -> M unit) l1 l2 s,
    for_each (l1 ++ l2) body s
    = bind (for_each l1 body) (fun _ => for_each l2 body) s.
Proof.
  intros A body l1 l2; induction l1 as [|x l1 IH]; intros s.
  - reflexivity.
  - cbn [app for_each]. unfold bind.
    destruct (body x s) as [[u|e] s1]; [|reflexivity].
    rewrite IH. reflexivity.
Qed.

(** X14.  [toots2tweets] on a newest-first batch handles the older toots
    first and the newest toot last, in the state the older ones left; an
    exception raised for an older toot ends the batch, and the newer toots
    are not looked at. *)
Theorem toots2tweets_oldest_first :
  forall newest older dry_run s,
    toots2tweets (newest :: older) dry_run s
    = match toots2tweets older dry_run s with
      | (Ok _, s') => create_tweet_from_toot newest dry_run s'
      | (Raise e, s') => (Raise e, s')
      end.
Proof.
  intros newest older dry_run s. unfold toots2tweets.
  cbn [rev]. rewrite for_each_app. unfold bind at 1.
  destruct (for_each (rev older) _ s) as [[u|e] s1]; [|reflexivity].
  cbn [for_each]. unfold bind, ret.
  destruct (create_tweet_from_toot newest dry_run s1) as [[[]|e] s2];
    reflexivity.
Qed.

(** X15.  Idempotence: a run that finds no new toot, in any mode, returns
    and changes neither [self] nor the data file (no marker, no mapping)
    and performs no action. *)
Theorem run_without_new_toots_changes_nothing :
  forall dry_run update s a w',
    data_mastodon_account (data (self s)) = Some a ->
    twoots (self s) = [] ->
    mastodon_account_statuses
      (account_id a)
      (if truthy (data_last_toot (data (self s)))
       then data_last_toot (data (self s)) else None)
      (world s)
    = (Ok [], w') ->
    run dry_run update s
    = (Ok tt, mk_State (self s) (data_file s) w' (actions s)).
Proof.
  intros dry_run update s a w' Hacc Htw Hfetch.
  unfold run, toots2tweets. run_fetch Hacc.
  destruct (truthy (data_last_toot (data (self s))));
    rewrite Hfetch; cbn [rev for_each self twoots fst snd];
    unfold ret; destruct (negb (setup (self s)));
    cbn [self]; rewrite Htw; reflexivity.
Qed.

(** X16.  First invocation: with no marker stored, a run that is not a dry
    run hands nothing to the decision engine, whatever the timeline holds;
    it performs no action, records no mapping, and only writes the marker
    [last_toot] with the id of the newest toot. *)
Theorem first_run_only_seeds_marker :
  forall update s a newest rest w',
    data_mastodon_account (data (self s)) = Some a ->
    truthy (data_last_toot (data (self s))) = false ->
    twoots (self s) = [] ->
    mastodon_account_statuses (account_id a) None (world s)
    = (Ok (newest :: rest), w') ->
    run false update s
    = (Ok tt,
       mk_State (self s)
                (Some (set_marker (file_data (data_file s)) Last_toot
                                  (t_id newest)))
                w' (actions s)).
Proof.
  intros update s a newest rest w' Hacc Hlast Htw Hfetch.
  unfold run, toots2tweets. run_fetch Hacc.
  rewrite Hlast, Hfetch.
  cbn [negb orb rev for_each self data_file world actions twoots fst snd].
  unfold ret; destruct (negb (setup (self s)));
    cbn [self]; rewrite Htw; reflexivity.
Qed.

(** *** Saving *)

(** X17.  [__save_data] needs the data file: without it the call raises
    [FileNotFoundError] and nothing changes, in particular no file is
    created and the new mappings stay in memory only. *)
Theorem save_data_needs_the_file :
  forall s,
    data_file s = None ->
    __save_data s = (Raise FileNotFoundError, s).
Proof.
  intros s Hf. unfold __save_data, bind, read_file, raise.
  rewrite Hf. reflexivity.
Qed.

(** X18.  A negative [max_twoots] is no cap: the slice then counts from
    the end, so the saved history is the concatenation of the new and the
    stored mappings without its last [-max_twoots] entries. *)
Theorem save_data_negative_bound :
  forall s d,
    data_file s = Some d ->
    max_twoots (self s) < 0 ->
    file_twoots (data_file (snd (__save_data s)))
    = firstn (length (twoots (self s) ++ data_twoots d)
              - Z.to_nat (- max_twoots (self s)))
             (twoots (self s) ++ data_twoots d).
Proof.
  intros s d Hd Hneg.
  unfold __save_data, bind, read_file, get_self, write_file.
  rewrite Hd. unfold slice_to.
  apply Z.leb_gt in Hneg. cbn [data_twoots set_twoots]. rewrite Hneg.
  reflexivity.
Qed.

(** *** Start-up *)

(** X19.  When the data file already holds both accounts, [__init__] asks
    neither platform: it succeeds with the world as it was, ignores its
    [setup] argument, starts with no new mapping and writes the loaded
    data back unchanged. *)
Theorem init_with_cached_accounts :
  forall max_twoots0 setup0 d am at_ w,
    data_mastodon_account d = Some am ->
    data_twitter_account d = Some at_ ->
    __init__ max_twoots0 setup0 (Some d) w = Ok (started max_twoots0 d w).
Proof.
  intros max_twoots0 setup0 d am at_ w Hm Ht.
  unfold __init__, started. rewrite Hm, Ht. reflexivity.
Qed.


(** X21.  After a successful [__init__] both accounts are stored, in
    [self.data] and in the data file, which hold the same dict; the history
    and the markers are the loaded ones, and nothing has been done on the
    destination platform. *)
Theorem init_stores_both_accounts :
  forall max_twoots0 setup0 file w s0,
    __init__ max_twoots0 setup0 file w = Ok s0 ->
    data_mastodon_account (data (self s0)) <> None
    /\ data_twitter_account (data (self s0)) <> None
    /\ data_file s0 = Some (data (self s0))
    /\ persisted (data_file s0) = persisted file
    /\ max_twoots (self s0) = max_twoots0
    /\ actions s0 = [].
Proof.
  intros max_twoots0 setup0 file w s0 H.
  destruct (init_facts _ _ _ _ _ H) as (_ & _ & Hf & Hp & Hacc).
  repeat split; auto; unfold __init__ in H.
  - destruct (data_mastodon_account _) eqn:E1 in H.
    + destruct (data_twitter_account _) eqn:E2 in H.
      * injection H as <-. cbn in *. congruence.
      * destruct (twitter_account_verify_credentials w) as [[b|e] w'];
          [|discriminate]. injection H as <-. cbn. discriminate.
    + destruct (mastodon_account_verify_credentials w) as [[c|e] w1];
        [|discriminate]. cbn [data_twitter_account] in H.
      destruct (data_twitter_account _) eqn:E2 in H.
      * injection H as <-. cbn in *. congruence.
      * destruct (twitter_account_verify_credentials w1) as [[b|e] w'];
          [|discriminate]. injection H as <-. cbn. discriminate.
  - destruct (data_mastodon_account _) in H;
      [|destruct (mastodon_account_verify_credentials w) as [[c|e] w1];
        [|discriminate]; cbn [data_twitter_account] in H];
      (destruct (data_twitter_account _) in H;
       [|match type of H with
         | context [twitter_account_verify_credentials ?x] =>
             destruct (twitter_account_verify_credentials x)
               as [[b|e'] w2]; [|discriminate]
         end]);
      injection H as <-; reflexivity.
  - destruct (data_mastodon_account _) in H;
      [|destruct (mastodon_account_verify_credentials w) as [[c|e] w1];
        [|discriminate]; cbn [data_twitter_account] in H];
      (destruct (data_twitter_account _) in H;
       [|match type of H with
         | context [twitter_account_verify_credentials ?x] =>
             destruct (twitter_account_verify_credentials x)
               as [[b|e'] w2]; [|discriminate]
         end]);
      injection H as <-; reflexivity.
Qed.

(** *** The media relay *)

Lemma str_eqb_neq : forall a b, a <> b -> str_eqb a b = false.
Proof.
  intros a b H. unfold str_eqb.
  destruct (list_eq_dec N.eq_dec a b); [contradiction|reflexivity].
Qed.

(** X22.  An attachment that is neither an image nor a gifv is skipped
    with a warning: nothing is downloaded or uploaded, and the relay
    returns [None]. *)
Theorem unknown_media_type_is_skipped :
  forall m s,
    media_type m <> lit "image" ->
    media_type m <> lit "gifv" ->
    __post_media_to_twitter m s
    = (Ok None,
       mk_State (self s) (data_file s) (world s)
                (actions s ++ [Warn (media_url m)])).
Proof.
  intros m s Hi Hg. unfold __post_media_to_twitter.
  rewrite (str_eqb_neq _ _ Hi), (str_eqb_neq _ _ Hg). reflexivity.
Qed.

(** X23.  An image that downloads with status 200 and an image content
    type is uploaded in one call with the downloaded bytes; the relay
    returns the platform's media dict, or [None] when the upload raises,
    and it does not raise itself. *)
Theorem image_is_uploaded_once :
  forall m s resp c w1 r w2,
    media_type m = lit "image" ->
    requests_get (media_url m) (world s) = (Ok resp, w1) ->
    status_code resp = 200 ->
    content_type resp = Some c ->
    contains c (lit "image") = true ->
    twitter_media_upload (UploadSimple (content resp)) w1 = (r, w2) ->
    __post_media_to_twitter m s
    = (Ok match r with
          | Ok x => Some x
          | Raise _ => None
          end,
       mk_State (self s) (data_file s) w2
                (actions s ++ [Upload (UploadSimple (content resp))])).
Proof.
  intros m s resp c w1 r w2 Hm Hget Hstatus Hc Himg Hup.
  unfold __post_media_to_twitter. rewrite Hm.
  change (str_eqb (lit "image") (lit "image")) with true. cbv iota.
  unfold __download_image, download, upload, try_except, bind, call, emit,
    ret.
  rewrite Hget, Hstatus, Hc, Himg.
  cbn [negb Z.eqb Pos.eqb self data_file world actions fst snd].
  rewrite Hup. destruct r; reflexivity.
Qed.

(** X24.  A gifv that downloads with status 200 and a video content type
    is uploaded in three calls, in this order: INIT with the byte count
    and the content type, APPEND of the whole video as segment 0 under the
    media id that INIT returned, FINALIZE under the same id; the relay
    returns the answer to FINALIZE, or [None] when FINALIZE raises. *)
Theorem gifv_is_uploaded_in_three_steps :
  forall m s resp c w1 init_res w2 append_res w3 r w4,
    media_type m = lit "gifv" ->
    requests_get (media_url m) (world s) = (Ok resp, w1) ->
    status_code resp = 200 ->
    content_type resp = Some c ->
    contains c (lit "video") = true ->
    twitter_media_upload (UploadInit (length (content resp)) c) w1
    = (Ok init_res, w2) ->
    twitter_media_upload
      (UploadAppend (media_id_string init_res) (content resp) 0) w2
    = (Ok append_res, w3) ->
    twitter_media_upload (UploadFinalize (media_id_string init_res)) w3
    = (r, w4) ->
    __post_media_to_twitter m s
    = (Ok match r with
          | Ok x => Some x
          | Raise _ => None
          end,
       mk_State (self s) (data_file s) w4
         (actions s
          ++ [Upload (UploadInit (length (content resp)) c);
              Upload (UploadAppend (media_id_string init_res)
                                   (content resp) 0);
              Upload (UploadFinalize (media_id_string init_res))])).
Proof.
  intros m s resp c w1 init_res w2 append_res w3 r w4
         Hm Hget Hstatus Hc Hvid Hinit Happ Hfin.
  unfold __post_media_to_twitter. rewrite Hm.
  change (str_eqb (lit "gifv") (lit "image")) with false.
  change (str_eqb (lit "gifv") (lit "gifv")) with true. cbv iota.
  unfold __download_video, download, upload, try_except, bind, call, emit,
    ret.
  rewrite Hget, Hstatus, Hc, Hvid.
  cbn [negb Z.eqb Pos.eqb self data_file world actions fst snd].
  rewrite Hinit.
  cbn [self data_file world actions fst snd]. rewrite Happ.
  cbn [self data_file world actions fst snd]. rewrite Hfin.
  rewrite <- !app_assoc. destruct r; reflexivity.
Qed.

(** *** The destination client wrappers *)

(** X25.  [__tweet] and [__retweet] never raise: an exception of the
    client becomes the result [None], an answer is passed on.  [__tweet]
    hands the media ids over as one comma-separated string, and both log
    exactly the one call they make. *)
Theorem client_wrappers_never_raise :
  forall text in_reply_to_id media_ids target s,
    (fst (__tweet text in_reply_to_id media_ids s)
     = Ok match fst (twitter_statuses_update text in_reply_to_id
                       (join (lit ",") media_ids) (world s)) with
          | Ok tw => Some tw
          | Raise _ => None
          end
     /\ actions (snd (__tweet text in_reply_to_id media_ids s))
        = actions s
          ++ [StatusUpdate text in_reply_to_id (join (lit ",") media_ids)])
    /\ (fst (__retweet target s)
        = Ok match fst (twitter_statuses_retweet target (world s)) with
             | Ok tw => Some tw
             | Raise _ => None
             end
        /\ actions (snd (__retweet target s))
           = actions s ++ [Retweet target]).
Proof.
  intros text in_reply_to_id media_ids target s.
  unfold __tweet, __retweet, try_except, bind, call, emit, ret.
  cbn [self data_file world actions fst snd].
  destruct (twitter_statuses_update _ _ _ _) as [[tw|e] w1];
    destruct (twitter_statuses_retweet _ _) as [[tw'|e'] w2];
    cbn; auto.
Qed.

(** *** The disabled direction *)

(** X26.  [get_new_tweets], whatever the destination timeline answers,
    leaves [self] alone, performs no action, and in the data file touches
    at most the marker [last_tweet]: the history, the marker [last_toot]
    and the accounts stay as they are, and a pure dry run writes
    nothing. *)
Theorem get_new_tweets_touches_only_last_tweet :
  forall timeline dry_run update s,
    self (snd (get_new_tweets timeline dry_run update s)) = self s
    /\ actions (snd (get_new_tweets timeline dry_run update s)) = actions s
    /\ data_twoots
         (file_data
            (data_file (snd (get_new_tweets timeline dry_run update s))))
       = data_twoots (file_data (data_file s))
    /\ data_last_toot
         (file_data
            (data_file (snd (get_new_tweets timeline dry_run update s))))
       = data_last_toot (file_data (data_file s))
    /\ (if negb dry_run || update then True
        else data_file (snd (get_new_tweets timeline dry_run update s))
             = data_file s).
Proof.
  intros timeline dry_run update s.
  unfold get_new_tweets, __update_last_id, try_except, bind, get_self,
    raise, call, read_file, write_file, ret.
  destruct (data_twitter_account (data (self s))) as [a|];
    [|cbn; destruct (negb dry_run || update); auto].
  destruct (truthy (data_last_tweet (data (self s))));
    match goal with
    | |- context [timeline ?a ?b ?c] =>
        destruct (timeline a b c) as [[[|n r]|e] w']
    end;
    cbn [fst snd self data_file world actions];
    destruct (negb dry_run || update);
    cbn [fst snd self data_file world actions];
    destruct (data_file s); repeat split; auto.
Qed.

End Further.

(** *** The escaping step *)

Lemma esc_char_clean :
  forall c, Forall (fun x => ~ In x escaped_chars) (esc_char c).
Proof.
  intros c. unfold esc_char.
  repeat match goal with
         | |- context [(c =? ?k)%N] =>
             destruct (N.eqb_spec c k);
             [repeat constructor; cbn; intuition discriminate|]
         end.
  repeat constructor. cbn. intuition congruence.
Qed.

(** X27.  The text handed to the HTML converter contains none of the six
    escaped characters: no line break, space, backslash, plus, hyphen or
    period survives the escaping step. *)
Theorem escaped_text_has_no_escaped_char :
  forall html,
    Forall (fun x => ~ In x escaped_chars) (__html2text_escape html).
Proof.
  intros html. rewrite escape_flat_map.
  induction html as [|c html IH]; cbn [flat_map]; [constructor|].
  apply Forall_app; split; [apply esc_char_clean|exact IH].
Qed.

(** X28.  The escaping step works character by character: the escaped
    form of a concatenation is the concatenation of the escaped forms, it
    is never shorter than the input, and it is the input itself when the
    input has none of the six characters. *)
Theorem escape_distributes_over_concatenation :
  forall a b,
    __html2text_escape (a ++ b)
    = __html2text_escape a ++ __html2text_escape b
    /\ (length a <= length (__html2text_escape a))%nat
    /\ (if forallb (fun x => negb (existsb (N.eqb x) escaped_chars)) a
        then __html2text_escape a = a else True).
Proof.
  intros a b. rewrite !escape_flat_map. split; [apply flat_map_app|].
  split.
  - induction a as [|c a IH]; cbn [flat_map length]; [lia|].
    rewrite length_app.
    assert (1 <= length (esc_char c))%nat; [|lia].
    unfold esc_char.
    repeat match goal with
           | |- context [(c =? ?k)%N] => destruct (c =? k)%N; [cbn; lia|]
           end.
    cbn; lia.
  - induction a as [|c a IH]; [reflexivity|].
    cbn [forallb].
    destruct (negb (existsb (N.eqb c) escaped_chars)) eqn:E; [|exact I].
    cbn [andb]. destruct (forallb _ a); [|exact I].
    cbn [flat_map]. rewrite IH.
    apply negb_true_iff in E. cbn in E.
    unfold esc_char.
    repeat match goal with
           | |- context [(c =? ?k)%N] =>
               destruct (c =? k)%N; [discriminate E|]
           end.
    reflexivity.
Qed.

(** *** The URL pattern *)

Lemma starts_with_app :
  forall p s, starts_with p s = true -> s = p ++ skipn (length p) s.
Proof.
  induction p as [|a p IH]; intros s H; [reflexivity|].
  destruct s as [|b s]; [discriminate|].
  cbn [starts_with] in H. apply andb_true_iff in H as [H1 H2].
  apply N.eqb_eq in H1; subst b. cbn [length skipn app].
  f_equal. apply IH, H2.
Qed.

Lemma starts_with_self_app : forall p r, starts_with p (p ++ r) = true.
Proof.
  induction p as [|a p IH]; intros r; [reflexivity|].
  cbn [app starts_with]. rewrite N.eqb_refl, IH. reflexivity.
Qed.

Lemma strip_prefix_some :
  forall p s r, strip_prefix p s = Some r -> s = p ++ r.
Proof.
  unfold strip_prefix; intros p s r H.
  destruct (starts_with p s) eqn:E; [|discriminate].
  injection H as <-. apply starts_with_app, E.
Qed.

Lemma span_nonspace_spec :
  forall s run rest,
    span_nonspace s = (run, rest) ->
    s = run ++ rest
    /\ forallb nonspace run = true
    /\ match rest with
       | [] => True
       | c :: _ => isspace c = true
       end.
Proof.
  induction s as [|c s IH]; intros run rest H; cbn [span_nonspace] in H.
  - injection H as <- <-. auto.
  - destruct (isspace c) eqn:E.
    + injection H as <- <-. auto.
    + destruct (span_nonspace s) as [run' rest'].
      injection H as <- <-.
      destruct (IH run' rest' eq_refl) as (-> & Hall & Hrest).
      repeat split; auto. cbn [forallb]. unfold nonspace at 1.
      rewrite E, Hall. reflexivity.
Qed.

Lemma url_tail_spec :
  forall scheme s u rest,
    url_tail scheme s = Some (u, rest) ->
    exists y run,
      u = scheme ++ y :: run /\ s = (y :: run) ++ rest
      /\ forallb nonspace (y :: run) = true
      /\ match rest with
         | [] => True
         | c :: _ => isspace c = true
         end.
Proof.
  unfold url_tail; intros scheme s u rest H.
  destruct (span_nonspace s) as [[|y run] r] eqn:E; [discriminate|].
  cbn in H. injection H as <- <-.
  destruct (span_nonspace_spec _ _ _ E) as (Hs & Hall & Hr).
  exists y, run. auto.
Qed.

(** What an anchored match looks like. *)
Lemma url_at_spec :
  forall s u rest,
    url_at s = Some (u, rest) ->
    exists scheme y run,
      (scheme = lit "http://" \/ scheme = lit "https://")
      /\ u = scheme ++ y :: run
      /\ s = u ++ rest
      /\ forallb nonspace (y :: run) = true
      /\ match rest with
         | [] => True
         | c :: _ => isspace c = true
         end.
Proof.
  unfold url_at; intros s u rest H.
  destruct (strip_prefix (lit "http") s) as [r|] eqn:E0; [|discriminate].
  apply strip_prefix_some in E0.
  assert (forall r2,
             strip_prefix (lit "://") r = Some r2 ->
             url_tail (lit "http://") r2 = Some (u, rest) ->
             exists scheme y run,
               (scheme = lit "http://" \/ scheme = lit "https://")
               /\ u = scheme ++ y :: run /\ s = u ++ rest
               /\ forallb nonspace (y :: run) = true
               /\ match rest with
                  | [] => True
                  | c :: _ => isspace c = true
                  end) as Hplain.
  { intros r2 E1 E2. apply strip_prefix_some in E1.
    destruct (url_tail_spec _ _ _ _ E2) as (y & run & -> & -> & Hall & Hr).
    exists (lit "http://"), y, run. subst. repeat split; auto. }
  destruct (strip_prefix (lit "s") r) as [r1|] eqn:E1.
  - destruct (strip_prefix (lit "://") r1) as [r2|] eqn:E2.
    + destruct (url_tail (lit "https://") r2) as [[u' rest']|] eqn:E3.
      * injection H as -> ->.
        apply strip_prefix_some in E1, E2.
        destruct (url_tail_spec _ _ _ _ E3)
          as (y & run & -> & -> & Hall & Hr).
        exists (lit "https://"), y, run. subst. repeat split; auto.
      * destruct (strip_prefix (lit "://") r) as [r3|] eqn:E4;
          [|discriminate]. eapply Hplain; eauto.
    + destruct (strip_prefix (lit "://") r) as [r3|] eqn:E4;
        [|discriminate]. eapply Hplain; eauto.
  - destruct (strip_prefix (lit "://") r) as [r3|] eqn:E4;
      [|discriminate]. eapply Hplain; eauto.
Qed.

(** X29.  Whatever [re.search] extracts is a piece of the text: it occurs
    in it, starts with [http://] or [https://], goes on with at least one
    more character, and contains no white space. *)
Theorem extracted_url_shape :
  forall s,
    match re_search_url s with
    | Some u =>
        contains s u = true
        /\ forallb nonspace u = true
        /\ (starts_with (lit "http://") u || starts_with (lit "https://") u
            = true)
        /\ (8 <= length u)%nat
    | None => True
    end.
Proof.
  assert (forall s u rest,
             url_at s = Some (u, rest) ->
             starts_with u s = true
             /\ forallb nonspace u = true
             /\ (starts_with (lit "http://") u
                 || starts_with (lit "https://") u = true)
             /\ (8 <= length u)%nat) as Hat.
  { intros s u rest H.
    destruct (url_at_spec _ _ _ H)
      as (scheme & y & run & Hscheme & -> & -> & Hall & _).
    split; [apply starts_with_self_app|].
    destruct Hscheme as [-> | ->].
    - split; [rewrite forallb_app, Hall; reflexivity|].
      split; [reflexivity|]. rewrite length_app. cbn. lia.
    - split; [rewrite forallb_app, Hall; reflexivity|].
      split; [reflexivity|]. rewrite length_app. cbn. lia. }
  induction s as [|c s IH]; cbn [re_search_url].
  - destruct (url_at []) as [[u rest]|] eqn:E; [|exact I].
    destruct (Hat _ _ _ E) as (H1 & H2 & H3 & H4).
    repeat split; auto. cbn [contains]. rewrite H1. reflexivity.
  - destruct (url_at (c :: s)) as [[u rest]|] eqn:E.
    + destruct (Hat _ _ _ E) as (H1 & H2 & H3 & H4).
      repeat split; auto. cbn [contains]. rewrite H1. reflexivity.
    + destruct (re_search_url s) as [u|]; [|exact I].
      destruct IH as (H1 & H2 & H3 & H4).
      repeat split; auto. cbn [contains]. rewrite H1. apply orb_true_r.
Qed.

Lemma re_sub_url_go_skip :
  forall a r, re_sub_url_go (length a) (a ++ r) = re_sub_url_go O r.
Proof.
  induction a as [|x a IH]; intros r; [reflexivity|].
  cbn [length app re_sub_url_go]. apply IH.
Qed.

Lemma re_sub_url_match :
  forall s u rest,
    url_at s = Some (u, rest) -> re_sub_url s = re_sub_url rest.
Proof.
  intros s u rest H.
  destruct (url_at_spec _ _ _ H)
    as (scheme & y & run & Hscheme & Hu & Hs & _).
  assert (exists c u', u = c :: u') as (c & u' & Hcu)
      by (destruct Hscheme; subst scheme u; eexists; eexists; reflexivity).
  unfold re_sub_url. rewrite Hs in H |- *. rewrite Hcu in H |- *.
  cbn [app re_sub_url_go]. cbn [app] in H. rewrite H.
  cbn [length Nat.pred]. apply re_sub_url_go_skip.
Qed.

Lemma re_sub_url_no_match :
  forall c s,
    url_at (c :: s) = None -> re_sub_url (c :: s) = c :: re_sub_url s.
Proof.
  intros c s H. unfold re_sub_url. cbn [re_sub_url_go]. rewrite H.
  reflexivity.
Qed.

Lemma url_at_space :
  forall c s, isspace c = true -> url_at (c :: s) = None.
Proof.
  intros c s H. unfold url_at, strip_prefix.
  destruct (starts_with (lit "http") (c :: s)) eqn:E; [|reflexivity].
  change (lit "http") with [104; 116; 116; 112]%N in E.
  cbn [starts_with] in E. apply andb_true_iff in E as [E _].
  apply N.eqb_eq in E. subst c. discriminate H.
Qed.

(** A run of non-space characters at the head of the body stood at the
    head of the text. *)
Lemma body_prefix_from_text :
  forall p s,
    forallb nonspace p = true ->
    starts_with p (re_sub_url s) = true ->
    starts_with p s = true.
Proof.
  induction p as [|x p IH]; intros s Hall H; [reflexivity|].
  cbn [forallb] in Hall. apply andb_true_iff in Hall as [Hx Hall].
  unfold nonspace in Hx. apply negb_true_iff in Hx.
  destruct s as [|c s]; [discriminate H|].
  destruct (url_at (c :: s)) as [[u rest]|] eqn:E.
  - rewrite (re_sub_url_match _ _ _ E) in H.
    destruct (url_at_spec _ _ _ E) as (_ & _ & _ & _ & _ & _ & _ & Hrest).
    destruct rest as [|sp rest]; [discriminate H|].
    rewrite (re_sub_url_no_match _ _ (url_at_space _ _ Hrest)) in H.
    cbn [starts_with] in H. apply andb_true_iff in H as [H _].
    apply N.eqb_eq in H. congruence.
  - rewrite (re_sub_url_no_match _ _ E) in H.
    cbn [starts_with] in H |- *. apply andb_true_iff in H as [H1 H2].
    rewrite H1. apply IH; assumption.
Qed.

Lemma url_at_from_prefix :
  forall scheme y z,
    scheme = lit "http://" \/ scheme = lit "https://" ->
    isspace y = false ->
    starts_with (scheme ++ [y]) z = true ->
    url_at z <> None.
Proof.
  intros scheme y z Hscheme Hy H.
  apply starts_with_app in H. rewrite H.
  set (tl := skipn (length (scheme ++ [y])) z). clearbody tl.
  destruct Hscheme; subst scheme;
    unfold url_at, strip_prefix, url_tail;
    cbn [lit list_ascii_of_string map N_of_ascii app starts_with length
         skipn N.eqb Pos.eqb N.of_nat andb span_nonspace];
    cbn; rewrite Hy; destruct (span_nonspace tl); discriminate.
Qed.

Lemma url_at_body :
  forall c s,
    url_at (c :: s) = None -> url_at (c :: re_sub_url s) = None.
Proof.
  intros c s H.
  destruct (url_at (c :: re_sub_url s)) as [[u rest]|] eqn:E;
    [|reflexivity].
  exfalso.
  destruct (url_at_spec _ _ _ E)
    as (scheme & y & run & Hscheme & Hu & Hs & Hall & _).
  cbn [forallb] in Hall. apply andb_true_iff in Hall as [Hy _].
  unfold nonspace in Hy. apply negb_true_iff in Hy.
  assert (starts_with (scheme ++ [y]) (c :: re_sub_url s) = true) as Hp.
  { rewrite Hs, Hu.
    replace ((scheme ++ y :: run) ++ rest)
      with ((scheme ++ [y]) ++ run ++ rest)
      by (rewrite <- !app_assoc; reflexivity).
    apply starts_with_self_app. }
  assert (forallb nonspace (scheme ++ [y]) = true) as Hns.
  { rewrite forallb_app. cbn [forallb]. unfold nonspace at 2.
    rewrite Hy. destruct Hscheme; subst scheme; reflexivity. }
  assert (exists h t, scheme ++ [y] = h :: t) as (h & t & Hht)
      by (destruct Hscheme; subst scheme; eexists; eexists; reflexivity).
  rewrite Hht in Hp, Hns.
  cbn [starts_with] in Hp. apply andb_true_iff in Hp as [Hh Ht].
  cbn [forallb] in Hns. apply andb_true_iff in Hns as [_ Hns].
  pose proof (body_prefix_from_text _ _ Hns Ht) as Ht'.
  apply (url_at_from_prefix scheme y (c :: s) Hscheme Hy); [|exact H].
  rewrite Hht. cbn [starts_with]. rewrite Hh, Ht'. reflexivity.
Qed.

Lemma re_search_body_bounded :
  forall n s, (length s <= n)%nat -> re_search_url (re_sub_url s) = None.
Proof.
  induction n as [|n IH]; intros s Hn.
  - destruct s; [reflexivity|cbn in Hn; lia].
  - destruct s as [|c s]; [reflexivity|].
    destruct (url_at (c :: s)) as [[u rest]|] eqn:E.
    + rewrite (re_sub_url_match _ _ _ E). apply IH.
      destruct (url_at_spec _ _ _ E)
        as (scheme & y & run & _ & Hu & Hs & _).
      rewrite Hs, Hu, !length_app in Hn. cbn [length] in Hn. lia.
    + rewrite (re_sub_url_no_match _ _ E). cbn [re_search_url].
      rewrite (url_at_body _ _ E). apply IH. cbn [length] in Hn. lia.
Qed.

(** X30.  The body that [re.sub] leaves holds no URL any more: a second
    search finds nothing, so deleting the matches never makes a new match
    out of the text around them, and no link stays in the part of the
    tweet that is cut to the budget. *)
Theorem body_has_no_url :
  forall toot_text, re_search_url (re_sub_url toot_text) = None.
Proof.
  intros toot_text. apply (re_search_body_bounded (length toot_text)).
  apply le_n.
Qed.

(* ================================================================== *)
(** * The further properties on concrete invocations *)
(* ================================================================== *)


Lemma failed_fetch_returns_empty_witness :
  @get_new_toots toy_down false false (@started toy_down 5 (seeded 1 []) 100)
  = (Ok [], @started toy_down 5 (seeded 1 []) 100).
Proof.
  exact (@failed_fetch_returns_empty toy_down false false
           (@started toy_down 5 (seeded 1 []) 100) (mk_account 1) ClientError 100
           eq_refl eq_refl).
Defined.

Lemma fetch_since_marker_witness :
  @get_new_toots toy_plain false false (@started toy_plain 5 (seeded 1 []) 100)
  = (Ok [text_toot 7 (lit "hello https://a.b")],
     @mk_State toy_plain (mk_Self false 5 [] (seeded 1 []))
       (Some (seeded 7 [])) 100 []).
Proof.
  exact (@fetch_since_marker toy_plain false false
           (@started toy_plain 5 (seeded 1 []) 100) (mk_account 1)
           [text_toot 7 (lit "hello https://a.b")] 100
           eq_refl eq_refl eq_refl).
Defined.

Lemma dry_run_mirrors_nothing_witness :
  actions (snd (@run toy_plain true true (@started toy_plain 5 (seeded 1 []) 100)))
  = []
  /\ self (snd (@run toy_plain true true (@started toy_plain 5 (seeded 1 []) 100)))
     = mk_Self false 5 [] (seeded 1 []).
Proof.
  exact (@dry_run_mirrors_nothing toy_plain true
           (@started toy_plain 5 (seeded 1 []) 100) eq_refl).
Defined.

Lemma foreign_reply_is_skipped_witness :
  @create_tweet_from_toot toy_plain foreign_reply_toot false
    (@started toy_plain 5 (seeded 1 []) 100)
  = (Ok tt, @started toy_plain 5 (seeded 1 []) 100).
Proof.
  apply (@foreign_reply_is_skipped toy_plain foreign_reply_toot false
           (@started toy_plain 5 (seeded 1 []) 100) (mk_account 1) 9);
    [reflexivity|reflexivity|discriminate|discriminate].
Defined.

Lemma boost_of_unsynced_toot_is_skipped_witness :
  @create_tweet_from_toot toy_boost boost_toot false
    (@started toy_boost 5 (seeded 1 []) 100)
  = (Ok tt, @started toy_boost 5 (seeded 1 []) 100).
Proof.
  exact (@boost_of_unsynced_toot_is_skipped toy_boost boost_toot false
           (@started toy_boost 5 (seeded 1 []) 100) (mk_account 1) 5
           eq_refl eq_refl eq_refl).
Defined.

Lemma boost_of_synced_toot_is_retweeted_witness :
  @create_tweet_from_toot toy_boost boost_toot false boost_start
  = (Ok tt,
     @mk_State toy_boost
       (mk_Self false 5 [mk_twoot 8 100] (seeded 1 [mk_twoot 5 50]))
       (Some (seeded 1 [mk_twoot 5 50])) 101 [Retweet (Some 50)]).
Proof.
  exact (@boost_of_synced_toot_is_retweeted toy_boost boost_toot
           boost_start (mk_account 1) 5 50 (Ok (mk_tweet 100)) 101
           eq_refl eq_refl eq_refl eq_refl eq_refl eq_refl).
Defined.

Lemma post_answers_the_paired_tweet_witness :
  fst (@create_tweet_from_toot toy_thread reply_toot false
         (@started toy_thread 5 (seeded 7 [mk_twoot 7 100]) 101))
  = Raise AttributeError
  /\ actions (snd (@create_tweet_from_toot toy_thread reply_toot false
                     (@started toy_thread 5 (seeded 7 [mk_twoot 7 100]) 101)))
     = [StatusUpdate
          (lit "second  https://a.b https://ribeiro.social/@justin/8")
          (Some 100) []]
  /\ data_file (snd (@create_tweet_from_toot toy_thread reply_toot false
                       (@started toy_thread 5 (seeded 7 [mk_twoot 7 100]) 101)))
     = Some (seeded 7 [mk_twoot 7 100]).
Proof.
  exact (@post_answers_the_paired_tweet toy_thread reply_toot
           (@started toy_thread 5 (seeded 7 [mk_twoot 7 100]) 101) (mk_account 1)
           (lit "second https://a.b")
           (lit "second  https://a.b https://ribeiro.social/@justin/8")
           101 (Ok (mk_tweet 101)) 102
           eq_refl eq_refl eq_refl eq_refl eq_refl eq_refl eq_refl eq_refl).
Defined.

Lemma run_without_new_toots_changes_nothing_witness :
  @run toy_quiet false false (@started toy_quiet 5 (seeded 1 [mk_twoot 5 50]) 100)
  = (Ok tt, @started toy_quiet 5 (seeded 1 [mk_twoot 5 50]) 100).
Proof.
  exact (@run_without_new_toots_changes_nothing toy_quiet false false
           (@started toy_quiet 5 (seeded 1 [mk_twoot 5 50]) 100) (mk_account 1) 100
           eq_refl eq_refl eq_refl).
Defined.

Lemma first_run_only_seeds_marker_witness :
  @run toy_plain false false (@started toy_plain 5 unseeded 100)
  = (Ok tt,
     @mk_State toy_plain (mk_Self false 5 [] unseeded)
       (Some (set_marker unseeded Last_toot 7)) 100 []).
Proof.
  exact (@first_run_only_seeds_marker toy_plain false
           (@started toy_plain 5 unseeded 100) (mk_account 1)
           (text_toot 7 (lit "hello https://a.b")) [] 100
           eq_refl eq_refl eq_refl eq_refl).
Defined.

Lemma save_data_needs_the_file_witness :
  @__save_data toy_quiet
    (@mk_State toy_quiet (mk_Self false 5 [mk_twoot 8 100] (seeded 1 []))
       None 100 [])
  = (Raise FileNotFoundError,
     @mk_State toy_quiet (mk_Self false 5 [mk_twoot 8 100] (seeded 1 []))
       None 100 []).
Proof.
  exact (@save_data_needs_the_file toy_quiet
           (@mk_State toy_quiet
              (mk_Self false 5 [mk_twoot 8 100] (seeded 1 []))
              None 100 [])
           eq_refl).
Defined.

Lemma save_data_negative_bound_witness :
  file_twoots
    (data_file
       (snd (@__save_data toy_quiet
               (@mk_State toy_quiet
                  (mk_Self false (-1) [mk_twoot 8 100] (seeded 1 []))
                  (Some (seeded 8 [mk_twoot 5 50; mk_twoot 4 40]))
                  100 []))))
  = [mk_twoot 8 100; mk_twoot 5 50].
Proof.
  apply (@save_data_negative_bound toy_quiet
           (@mk_State toy_quiet
              (mk_Self false (-1) [mk_twoot 8 100] (seeded 1 []))
              (Some (seeded 8 [mk_twoot 5 50; mk_twoot 4 40])) 100 [])
           (seeded 8 [mk_twoot 5 50; mk_twoot 4 40]) eq_refl).
  reflexivity.
Defined.

Lemma init_with_cached_accounts_witness :
  @__init__ toy_down 5 true (Some (seeded 1 [mk_twoot 5 50])) 100
  = Ok (@started toy_down 5 (seeded 1 [mk_twoot 5 50]) 100).
Proof.
  exact (@init_with_cached_accounts toy_down 5 true
           (seeded 1 [mk_twoot 5 50]) (mk_account 1) (mk_account 2) 100
           eq_refl eq_refl).
Defined.


Lemma init_stores_both_accounts_witness :
  data_file (@started toy_plain 5 unseeded 100) = Some unseeded
  /\ persisted (data_file (@started toy_plain 5 unseeded 100))
     = persisted None.
Proof.
  pose proof (@init_stores_both_accounts toy_plain 5 false None 100
                (@started toy_plain 5 unseeded 100) eq_refl)
    as (_ & _ & Hf & Hp & _).
  exact (conj Hf Hp).
Defined.

Lemma unknown_media_type_is_skipped_witness :
  @__post_media_to_twitter toy_quiet audio (@started toy_quiet 5 (seeded 1 []) 100)
  = (Ok None,
     @mk_State toy_quiet (mk_Self false 5 [] (seeded 1 []))
       (Some (seeded 1 [])) 100
       [Warn (lit "https://ribeiro.social/media/4.ogg")]).
Proof.
  apply (@unknown_media_type_is_skipped toy_quiet audio
           (@started toy_quiet 5 (seeded 1 []) 100));
    vm_compute; discriminate.
Defined.

Lemma image_is_uploaded_once_witness :
  @__post_media_to_twitter toy_quiet good_image
    (@started toy_quiet 5 (seeded 1 []) 100)
  = (Ok (Some (mk_twitter_media (lit "m"))),
     @mk_State toy_quiet (mk_Self false 5 [] (seeded 1 []))
       (Some (seeded 1 [])) 100 [Upload (UploadSimple [])]).
Proof.
  exact (@image_is_uploaded_once toy_quiet good_image
           (@started toy_quiet 5 (seeded 1 []) 100) http_ok (lit "image/png") 100
           (Ok (mk_twitter_media (lit "m"))) 100
           eq_refl eq_refl eq_refl eq_refl eq_refl eq_refl).
Defined.

Lemma gifv_is_uploaded_in_three_steps_witness :
  @__post_media_to_twitter toy_video clip (@started toy_video 5 (seeded 1 []) 100)
  = (Ok (Some (mk_twitter_media (lit "m"))),
     @mk_State toy_video (mk_Self false 5 [] (seeded 1 []))
       (Some (seeded 1 [])) 100
       [Upload (UploadInit 3 (lit "video/mp4"));
        Upload (UploadAppend (lit "m") [1; 2; 3]%N 0);
        Upload (UploadFinalize (lit "m"))]).
Proof.
  exact (@gifv_is_uploaded_in_three_steps toy_video clip
           (@started toy_video 5 (seeded 1 []) 100) http_video (lit "video/mp4") 100
           (mk_twitter_media (lit "m")) 100
           (mk_twitter_media (lit "m")) 100
           (Ok (mk_twitter_media (lit "m"))) 100
           eq_refl eq_refl eq_refl eq_refl eq_refl eq_refl eq_refl eq_refl).
Defined.
